(** * django-debug-toolbar: the stack-trace and request utilities

    A shallow embedding of [debug_toolbar/utils.py] (version 3.2.4) and of the
    bounded store of historical requests, with the properties the package
    documentation states about them.

    Conventions of the embedding:
    - a Python [str] is a [string]; a character is a code point below 256;
    - a Python [int] is a [Z];
    - [None] is the [None] of an [option];
    - a raised exception is the [Raise] case of [result];
    - a [dict] with string keys is a [gmap string _];
    - settings read through [dt_settings.get_config()] and values computed
      at import time ([hidden_paths]) are section variables, as are the
      functions of the operating system and of the Python library whose
      result depends on the machine ([os.path.realpath], [pprint.pformat]). *)

From Stdlib Require Import ZArith Ascii.
From stdpp Require Import base tactics option list strings gmap sorting pretty.

Open Scope Z_scope.

(** ** Exceptions *)

Inductive exn : Type :=
  | ValueError
  | IndexError.

Inductive result (A : Type) : Type :=
  | Ok (a : A)
  | Raise (e : exn).
Arguments Ok {A} a.
Arguments Raise {A} e.

Definition bind {A B} (r : result A) (k : A → result B) : result B :=
  match r with
  | Ok a => k a
  | Raise e => Raise e
  end.

Notation "x ←r r ; k" := (bind r (λ x, k))
  (at level 20, r at level 100, k at level 200, only parsing).

(** ** The Python string methods the module calls *)

Module Str.

(** [str.isspace] on one character, for code points below 256: the ASCII
    white space, the four separators 28..31, NEL (133) and NBSP (160). *)
Definition isspace (c : ascii) : bool :=
  match c with
  | "009" | "010" | "011" | "012" | "013" | "028" | "029" | "030" | "031"
  | " " | "133" | "160" => true
  | _ => false
  end%char.

Fixpoint lstrip (s : string) : string :=
  match s with
  | EmptyString => EmptyString
  | String c s' => if isspace c then lstrip s' else s
  end.

Fixpoint rstrip (s : string) : string :=
  match s with
  | EmptyString => EmptyString
  | String c s' =>
      match rstrip s' with
      | EmptyString => if isspace c then EmptyString else String c EmptyString
      | r => String c r
      end
  end.

(** [s.strip()] *)
Definition strip (s : string) : string := rstrip (lstrip s).

(** [sep.join(parts)] *)
Definition join (sep : string) (parts : list string) : string :=
  String.concat sep parts.

(** [s.startswith(p)] *)
Definition startswith (s p : string) : bool := String.prefix p s.

(** [s.replace(c, by)] for a one-character pattern. *)
Fixpoint replace (c : ascii) (by_ : string) (s : string) : string :=
  match s with
  | EmptyString => EmptyString
  | String d s' =>
      if decide (d = c) then by_ +:+ replace c by_ s'
      else String d (replace c by_ s')
  end.

(** [s.rsplit(sep, 1)] for a one-character separator: the list of the one
    or two pieces of [s] around the last occurrence of [sep]. *)
Fixpoint rsplit1 (sep : ascii) (s : string) : list string :=
  match s with
  | EmptyString => [EmptyString]
  | String c s' =>
      match rsplit1 sep s' with
      | [d; f] => [String c d; f]
      | _ => if decide (c = sep) then [EmptyString; s'] else [s]
      end
  end.

(** [fmt.format( *args )] restricted to the automatic field [{}]:
    every [{}] is replaced by the next argument; [IndexError] when the
    arguments run out. *)
Fixpoint format (fmt : string) (args : list string) : result string :=
  match fmt with
  | EmptyString => Ok EmptyString
  | String c fmt' =>
      match c, fmt' with
      | "{"%char, String "}"%char rest =>
          match args with
          | a :: args' => out ←r format rest args'; Ok (a +:+ out)
          | [] => Raise IndexError
          end
      | _, _ => out ←r format fmt' args; Ok (String c out)
      end
  end.

(** The characters that have no literal of their own. *)
Definition dquote : string := String "034"%char EmptyString.
Definition newline : string := String "010"%char EmptyString.

(** [c in s] for a character. *)
Fixpoint contains (c : ascii) (s : string) : bool :=
  match s with
  | EmptyString => false
  | String d s' => if decide (d = c) then true else contains c s'
  end.

(** [s.endswith(p)] *)
Fixpoint endswith (s p : string) : bool :=
  if decide (s = p) then true
  else match s with
       | EmptyString => false
       | String _ s' => endswith s' p
       end.

End Str.

(** ** [html.escape] and [django.utils.html.format_html] *)

Module Html.

(** [django.utils.safestring.SafeString]: a string marked safe for HTML
    output. *)
Inductive SafeString : Type :=
  | mark_safe (s : string).

Definition unsafe (s : SafeString) : string :=
  match s with mark_safe s => s end.

(** The arguments a caller hands to [format_html]. *)
Inductive value : Type :=
  | VStr (s : string)
  | VInt (n : Z)
  | VSafe (s : SafeString).

(** [str(v)] *)
Definition str (v : value) : string :=
  match v with
  | VStr s => s
  | VInt n => pretty n
  | VSafe s => unsafe s
  end.

(** [html.escape(s, quote=True)]: five replacements, the ampersand first. *)
Definition escape (s : string) : string :=
  let s := Str.replace "&" "&amp;" s in
  let s := Str.replace "<" "&lt;" s in
  let s := Str.replace ">" "&gt;" s in
  let s := Str.replace "034" "&quot;" s in
  let s := Str.replace "'" "&#x27;" s in
  s.

(** [conditional_escape]: a value that is already safe is kept, any other
    is converted with [str] and escaped. *)
Definition conditional_escape (v : value) : SafeString :=
  match v with
  | VSafe s => s
  | _ => mark_safe (escape (str v))
  end.

(** [format_html(format_string, *args)] *)
Definition format_html (format_string : string) (args : list value)
  : result SafeString :=
  out ←r Str.format format_string (unsafe ∘ conditional_escape <$> args);
  Ok (mark_safe out).

End Html.

(** ** [debug_toolbar/utils.py] *)

Module Utils.
Section utils.

(** The type of a frame's [f_locals] dictionary. *)
Context {Locals : Type}.
(** [os.path.realpath], [os.path.sep] and [pprint.pformat]. *)
Context (realpath : string → string).
Context (os_path_sep : ascii).
Context (pformat : option Locals → string).
(** [hidden_paths]: the module paths of [HIDE_IN_STACKTRACES], computed
    when the module is imported. *)
Context (hidden_paths : list string).
(** [dt_settings.get_config()["ENABLE_STACKTRACES_LOCALS"]] *)
Context (ENABLE_STACKTRACES_LOCALS : bool).

(** A frame object, as far as the module reads it. *)
Record frame : Type := { f_locals : Locals }.

(** A record of [get_stack()]: [(frame, filename, lineno, function,
    lines, index)]. *)
Definition frame_tuple : Type :=
  frame * string * Z * string * option (list string) * option Z.

(** An entry of a tidied trace: [(path, line_no, func_name, text,
    frame_locals)]. *)
Definition trace_entry : Type :=
  string * Z * string * string * option Locals.

Definition omit_path (path : string) : bool :=
  existsb (λ hidden_path, Str.startswith path hidden_path) hidden_paths.

(** The body of the loop of [tidy_stacktrace] for one frame tuple, given
    the trace built so far. *)
Definition tidy_step (trace : list trace_entry) (f : frame_tuple)
  : list trace_entry :=
  let '(frame, path, line_no, func_name, text, _) := f in
  if omit_path (realpath path) then trace
  else
    let text :=
      match text with
      | Some ((_ :: _) as lines) => Str.strip (Str.join "" lines)
      | _ => ""
      end in
    let frame_locals :=
      if ENABLE_STACKTRACES_LOCALS then Some (f_locals frame) else None in
    trace ++ [(path, line_no, func_name, text, frame_locals)].

Definition tidy_stacktrace (stack : list frame_tuple) : list trace_entry :=
  fold_left tidy_step stack [].

(** [directory, filename = pieces]: unpacking a list into two names. *)
Definition unpack2 (pieces : list string) : result (string * string) :=
  match pieces with
  | [a; b] => Ok (a, b)
  | _ => Raise ValueError
  end.

Definition quoted (s : string) : string := Str.dquote +:+ s +:+ Str.dquote.

Definition entry_format : string :=
  ("<span class=" +:+ quoted "djdt-path" +:+ ">{}/</span>")
  +:+ ("<span class=" +:+ quoted "djdt-file" +:+ ">{}</span> in")
  +:+ (" <span class=" +:+ quoted "djdt-func" +:+ ">{}</span>")
  +:+ ("(<span class=" +:+ quoted "djdt-lineno" +:+ ">{}</span>)" +:+ Str.newline)
  +:+ ("  <span class=" +:+ quoted "djdt-code" +:+ ">{}</span>" +:+ Str.newline).

Definition locals_format : string :=
  "  <pre class=" +:+ quoted "djdt-locals" +:+ ">{}</pre>" +:+ Str.newline.

(** The loop of [render_stacktrace]: [html] is the text built so far. *)
Fixpoint render_entries (show_locals : bool) (trace : list trace_entry)
    (html : string) : result string :=
  match trace with
  | [] => Ok html
  | (abspath, lineno, func, code, locals_) :: trace' =>
      p ←r unpack2 (Str.rsplit1 os_path_sep abspath);
      let '(directory, filename) := p in
      block ←r Html.format_html entry_format
                 [Html.VStr directory; Html.VStr filename; Html.VStr func;
                  Html.VInt lineno; Html.VStr code];
      let html := html +:+ Html.unsafe block in
      html ←r (if show_locals then
                 block ←r Html.format_html locals_format
                            [Html.VStr (pformat locals_)];
                 Ok (html +:+ Html.unsafe block)
               else Ok html);
      render_entries show_locals trace' (html +:+ Str.newline)
  end.

Definition render_stacktrace (trace : list trace_entry)
  : result Html.SafeString :=
  let show_locals := ENABLE_STACKTRACES_LOCALS in
  html ←r render_entries show_locals trace "";
  Ok (Html.mark_safe html).

End utils.

Section templates.

(** A template's [Origin] (compared with [==]) and a node's [Token]. *)
Context {Origin : Type} `{EqDecision Origin} {Token : Type}.

(** The entries of the dictionary [get_exception_info] returns that the
    module reads: ["line"], ["source_lines"] (numbered lines) and ["name"]. *)
Record exception_info : Type := {
  ei_line : Z;
  ei_source_lines : list (Z * string);
  ei_name : string
}.

(** A template: its origin and its method [get_exception_info(exception,
    token)], whose first argument is always [Exception("DDT")] here. *)
Record Template : Type := {
  origin : Origin;
  get_exception_info : Token → exception_info
}.

Record RenderContext : Type := { rc_template : Template }.

Record TemplateContext : Type := {
  template : Template;
  render_context : RenderContext
}.

Record Node : Type := {
  node_origin : Origin;
  token : Token
}.

Definition get_template_source_from_exception_info
    (node : Node) (context : TemplateContext) : Z * list (Z * string) * string :=
  let exception_info :=
    if decide (origin (template context) = node_origin node) then
      get_exception_info (template context) (token node)
    else
      get_exception_info (rc_template (render_context context)) (token node) in
  let line := ei_line exception_info in
  let source_lines := ei_source_lines exception_info in
  let name := ei_name exception_info in
  (line, source_lines, name).

(** An entry of ["context"]: [{"num": .., "content": .., "highlight": ..}]. *)
Record debug_line : Type := {
  num : Z;
  content : string;
  highlight : bool
}.

(** The dictionary [get_template_context] returns. *)
Record template_info : Type := {
  name : string;
  context : list debug_line
}.

Definition get_template_context
    (node : Node) (context : TemplateContext) (context_lines : Z)
    : template_info :=
  let '(line, source_lines, name) :=
    get_template_source_from_exception_info node context in
  let start := Z.max 1 (line - context_lines) in
  let end_ := line + 1 + context_lines in
  let debug_context :=
    fold_left
      (λ debug_context '(line_num, content),
         if (start <=? line_num) && (line_num <=? end_) then
           debug_context ++
             [{| num := line_num; content := content;
                 highlight := bool_decide (line_num = line) |}]
         else debug_context)
      source_lines [] in
  {| name := name; context := debug_context |}.

(** The default of the parameter [context_lines]. *)
Definition default_context_lines : Z := 3.

End templates.

Section request_variables.

(** The type of the values of the request data. *)
Context {V : Type}.

(** What [get_sorted_request_variable] is called with: a [dict], or an
    object that is not a [dict], iterates over its keys and answers
    [getlist(key)] with the list of the values of the key. *)
Inductive request_variable : Type :=
  | Dict (d : gmap string V)
  | MultiValue (m : gmap string (list V)).

(** The second component of a returned pair: the result of [variable.get(k)]
    (a value or [None]) or of [variable.getlist(k)]. *)
Inductive variable_value : Type :=
  | Get (v : option V)
  | GetList (vs : list V).

(** [sorted(keys)] on strings, ordered by code points. *)
Definition sorted (keys : list string) : list string :=
  merge_sort String.le keys.

(** [m.getlist(k)]: the values of the key, the empty list without it. *)
Definition getlist (m : gmap string (list V)) (k : string) : list V :=
  default [] (m !! k).

Definition get_sorted_request_variable (variable : request_variable)
    : list (string * variable_value) :=
  match variable with
  | Dict d =>
      (λ k, (k, Get (d !! k))) <$> sorted ((map_to_list d).*1)
  | MultiValue m =>
      (λ k, (k, GetList (getlist m k))) <$> sorted ((map_to_list m).*1)
  end.

End request_variables.

Section template_info.

Context {Origin : Type} `{EqDecision Origin} {Token : Type}.

(** What a local variable of a frame can hold, as far as [get_template_info]
    tells the values apart: a template [Node], a template context, or any
    other object. *)
Inductive local_value : Type :=
  | ANode (node : @Node Origin Token)
  | AContext (context : @TemplateContext Origin Token)
  | AnObject.

(** A frame as [get_template_info] reads it: [f_code.co_filename],
    [f_code.co_name] and [f_locals]. *)
Record code_frame : Type := {
  co_filename : string;
  co_name : string;
  frame_locals : gmap string local_value
}.

(** What ends the loop of [get_template_info]: a [break] or the end of the
    frames, with the value of [template_info], or an exception. *)
Inductive walk : Type :=
  | Done (template_info : option template_info)
  | Raised.

(** The loop of [get_template_info] over [cur_frame], [cur_frame.f_back],
    ...: [frames] lists them from the caller outwards. A missing local
    raises [KeyError]; a context without the attributes of a template
    context raises [AttributeError] inside [get_template_context]. *)
Fixpoint walk_frames (frames : list code_frame) : walk :=
  match frames with
  | [] => Done None
  | cur_frame :: f_back =>
      let in_utils_module :=
        Str.endswith (co_filename cur_frame) "/debug_toolbar/utils.py" in
      let is_get_template_context :=
        bool_decide (co_name cur_frame = "get_template_context") in
      if in_utils_module && is_get_template_context then Done None
      else if bool_decide (co_name cur_frame = "render") then
        match frame_locals cur_frame !! "self" with
        | None => Raised
        | Some node =>
            match frame_locals cur_frame !! "context" with
            | None => Raised
            | Some context =>
                match node with
                | ANode node =>
                    match context with
                    | AContext context =>
                        Done (Some (get_template_context node context
                                      default_context_lines))
                    | _ => Raised
                    end
                | _ => walk_frames f_back
                end
            end
        end
      else walk_frames f_back
  end.

(** [get_template_info()], called with the frames [sys._getframe().f_back],
    its [f_back], ...: an exception of the loop is swallowed and leaves
    [template_info] at [None]. *)
Definition get_template_info (frames : list code_frame)
    : option template_info :=
  match walk_frames frames with
  | Done template_info => template_info
  | Raised => None
  end.

End template_info.

Section frames.

Context {Locals : Type}.

(** A frame object as [getframeinfo] and [get_stack] read it. *)
Record frame_object : Type := {
  fo_frame : @frame Locals;
  f_lineno : Z;
  f_code_co_name : string;
  f_code_co_filename : string
}.

(** What [getframeinfo] is called with: a frame, a traceback (with
    [tb_lineno] and [tb_frame]), or another object, which may have an
    attribute [f_lineno]. *)
Inductive frame_or_traceback : Type :=
  | AFrame (frame : frame_object)
  | ATraceback (tb_lineno : Z) (tb_frame : frame_object)
  | AnotherObject (f_lineno : option Z).

(** The lines [inspect.findsource] returns: text, or bytes. *)
Inductive source : Type :=
  | TextLines (lines : list string)
  | BytesLines (lines : list string).

Inductive frame_exn : Type :=
  | TypeError
  | AttributeError
  | LookupError.

(** [inspect.getsourcefile]; [inspect.findsource], [None] when it raises;
    the first group of [re.search(br"coding[:=]\s*([-\w.]+)", line)],
    decoded; [line.decode(encoding, "replace")], [None] for an encoding
    that is not known. *)
Context (getsourcefile : frame_object → option string).
Context (findsource : frame_object → option source).
Context (coding : string → option string).
Context (decode : string → string → option string).

(** [l[i:j]] *)
Definition slice {A} (l : list A) (i j : Z) : list A :=
  let n := Z.of_nat (length l) in
  let clamp k := if k <? 0 then Z.max 0 (k + n) else Z.min k n in
  take (Z.to_nat (clamp j - clamp i)) (drop (Z.to_nat (clamp i)) l).

(** The value [getframeinfo] returns: [(filename, lineno, function,
    lines, index)], as a named tuple where [inspect.Traceback] exists and
    as a plain tuple otherwise. *)
Definition frame_info : Type :=
  string * Z * string * option (list string) * option Z.

(** The encoding the first two lines declare, [ascii] without a
    declaration. *)
Fixpoint declared_encoding (first_lines : list string) : string :=
  match first_lines with
  | [] => "ascii"
  | line :: first_lines' =>
      match coding line with
      | Some encoding => encoding
      | None => declared_encoding first_lines'
      end
  end.

(** [[line.decode(encoding, "replace") for line in lines]] *)
Fixpoint decode_lines (encoding : string) (lines : list string)
    : option (list string) :=
  match lines with
  | [] => Some []
  | line :: lines' =>
      match decode encoding line with
      | None => None
      | Some text =>
          match decode_lines encoding lines' with
          | None => None
          | Some texts => Some (text :: texts)
          end
      end
  end.

Definition getframeinfo (frame : frame_or_traceback) (context : Z)
    : frame_exn + frame_info :=
  match
    match frame with
    | ATraceback tb_lineno tb_frame => inr (tb_lineno, Some tb_frame)
    | AFrame frame => inr (f_lineno frame, Some frame)
    | AnotherObject (Some lineno) => inr (lineno, None)
    | AnotherObject None => inl AttributeError
    end
  with
  | inl e => inl e
  | inr (_, None) => inl TypeError
  | inr (lineno, Some frame) =>
      let filename :=
        match getsourcefile frame with
        | Some (String _ _ as path) => path
        | _ => f_code_co_filename frame
        end in
      let '(first_lines, lines, index) :=
        if 0 <? context then
          let start := lineno - 1 - context `div` 2 in
          match findsource frame with
          | None => (None, None, None)
          | Some src =>
              let all_lines :=
                match src with TextLines l | BytesLines l => l end in
              let start := Z.max start 1 in
              let start :=
                Z.max 0 (Z.min start (Z.of_nat (length all_lines) - context)) in
              let window := slice all_lines start (start + context) in
              (Some (match src with
                     | TextLines l => TextLines (slice l 0 2)
                     | BytesLines l => BytesLines (slice l 0 2)
                     end),
               Some window, Some (lineno - 1 - start))
          end
        else (None, None, None) in
      match first_lines, lines with
      | Some (BytesLines ((_ :: _) as first_lines)), Some lines =>
          let encoding := declared_encoding (slice first_lines 0 2) in
          match decode_lines encoding lines with
          | None => inl LookupError
          | Some lines =>
              inr (filename, lineno, f_code_co_name frame, Some lines, index)
          end
      | _, _ => inr (filename, lineno, f_code_co_name frame, lines, index)
      end
  end.

(** The loop of [get_stack] over [frame], [frame.f_back], ... *)
Fixpoint get_stack_from (frames : list frame_object) (context : Z)
    (framelist : list (@frame_tuple Locals))
    : frame_exn + list (@frame_tuple Locals) :=
  match frames with
  | [] => inr framelist
  | frame :: f_back =>
      match getframeinfo (AFrame frame) context with
      | inl e => inl e
      | inr (filename, lineno, function, lines, index) =>
          get_stack_from f_back context
            (framelist ++
               [(fo_frame frame, filename, lineno, function, lines, index)])
      end
  end.

(** [get_stack(context)], called with the frames [sys._getframe(1)], its
    [f_back], ... *)
Definition get_stack (frames : list frame_object) (context : Z)
    : frame_exn + list (@frame_tuple Locals) :=
  get_stack_from frames context [].

End frames.

Section thread_collector.

(** Threads, compared and hashed as dictionary keys, and collected items. *)
Context {Thread : Type} `{Countable Thread} {Item : Type}.
(** [threading.current_thread()] *)
Context (current_thread : Thread).

(** [ThreadCollector]: the dictionary [collections] that maps threads to
    the lists of their items. *)
Record ThreadCollector : Type := {
  collections : gmap Thread (list Item)
}.

(** [ThreadCollector()] when the module [threading] could be imported
    ([threading] is [True]) or not. *)
Definition ThreadCollector_init (threading : bool) : option ThreadCollector :=
  if threading then Some {| collections := ∅ |} else None.

(** [self.get_collection(thread)]: the collector afterwards and the list
    returned, which is the list held in [collections]. *)
Definition get_collection (self : ThreadCollector) (thread : option Thread)
    : ThreadCollector * list Item :=
  let thread := default current_thread thread in
  let self :=
    match collections self !! thread with
    | None => {| collections := <[thread := []]> (collections self) |}
    | Some _ => self
    end in
  (self, default [] (collections self !! thread)).

Definition clear_collection (self : ThreadCollector) (thread : option Thread)
    : ThreadCollector :=
  let thread := default current_thread thread in
  match collections self !! thread with
  | Some _ => {| collections := delete thread (collections self) |}
  | None => self
  end.

(** [self.collect(item, thread)]: the item is appended to the list
    [get_collection] returns, which is the one held in [collections]. *)
Definition collect (self : ThreadCollector) (item : Item)
    (thread : option Thread) : ThreadCollector :=
  let '(self, collection) := get_collection self thread in
  let thread := default current_thread thread in
  {| collections := <[thread := collection ++ [item]]> (collections self) |}.

End thread_collector.
End Utils.

(** ** The bounded store of historical requests *)

Module Toolbar.

(** Modelled from the spec: a panel of a stored toolbar, of which the history
    views read the identifier, the rendered button and content, and whether
    the panel is shown for a historical request (the panel classes of
    [debug_toolbar/panels/] are not part of the sources; in
    [tests/panels/test_history.py] the toolbar has the panel [HistoryPanel],
    which is not among the [PANEL_KEYS] the view answers with). *)
Record Panel : Type := {
  panel_id : string;
  is_historical : bool;
  button : string;
  content : string
}.

(** Modelled from the spec: one historical request, the toolbar that was
    attached to it with its panels ([DebugToolbar] of
    [debug_toolbar/toolbar.py], which is not part of the sources). *)
Record DebugToolbar : Type := {
  panels : list Panel
}.

(** Modelled from the spec: the in-memory store of historical requests keyed
    by an identifier ([DebugToolbar._store], not part of the sources): the
    stored toolbars with their [store_id], oldest first. *)
Definition Store : Type := list (string * DebugToolbar).

(** Modelled from the spec: [_store[store_id] = toolbar] on the ordered
    store: the value of a key already present is replaced where it stands,
    a new key is added at the end. *)
Fixpoint setitem (st : Store) (store_id : string) (toolbar : DebugToolbar)
    : Store :=
  match st with
  | [] => [(store_id, toolbar)]
  | (k, v) :: st' =>
      if decide (k = store_id) then (k, toolbar) :: st'
      else (k, v) :: setitem st' store_id toolbar
  end.

(** Modelled from the spec: the store is bounded ([DebugToolbar.store], not
    part of the sources): the toolbar is entered under its [store_id], then
    the oldest entries are dropped one by one until no more than
    [RESULTS_CACHE_SIZE] are left. *)
Definition store (RESULTS_CACHE_SIZE : nat) (st : Store)
    (store_id : string) (toolbar : DebugToolbar) : Store :=
  let st := setitem st store_id toolbar in
  Nat.iter (length st - RESULTS_CACHE_SIZE) (λ st, tail st) st.

(** Modelled from the spec: looking a historical request up by its
    identifier ([DebugToolbar.fetch], not part of the sources). *)
Fixpoint fetch (st : Store) (store_id : string) : option DebugToolbar :=
  match st with
  | [] => None
  | (k, v) :: st' => if decide (k = store_id) then Some v else fetch st' store_id
  end.

(** A JSON response: the status and the JSON object of the body. *)
Record JsonResponse : Type := {
  status_code : Z;
  json : gmap string (string * string)
}.

(** Modelled from the spec: the view [history_sidebar] for a request that
    carries [store_id] ([debug_toolbar/panels/history/views.py] is not part
    of the sources; [tests/panels/test_history.py] calls it): the historical
    panels of the stored toolbar by identifier, or the empty object when the
    identifier is not in the store; status 200 in both cases. *)
Definition history_sidebar (st : Store) (store_id : string) : JsonResponse :=
  match fetch st store_id with
  | None => {| status_code := 200; json := ∅ |}
  | Some toolbar =>
      {| status_code := 200;
         json := list_to_map
                   ((λ p, (panel_id p, (button p, content p)))
                    <$> filter (λ p, is_historical p = true) (panels toolbar)) |}
  end.

(** The identifiers in the store, as [list(DebugToolbar._store)] gives them. *)
Definition store_ids (st : Store) : list string := st.*1.

End Toolbar.

(** * The vocabulary of the statements *)

(** [s] starts with [p]: [s] is [p] followed by some rest. *)
Definition starts_with (s p : string) : Prop := ∃ rest, s = p +:+ rest.

(** What [html.escape] writes for one character. *)
Definition escaped_char (c : ascii) : string :=
  if decide (c = "&"%char) then "&amp;"
  else if decide (c = "<"%char) then "&lt;"
  else if decide (c = ">"%char) then "&gt;"
  else if decide (c = "034"%char) then "&quot;"
  else if decide (c = "'"%char) then "&#x27;"
  else String c "".

(** Strictly ascending order of strings, by code points. *)
Definition str_lt : relation string := strict String.le.

Section tidy_stacktrace_vocabulary.

Context {Locals : Type}.
Context (realpath : string → string).
Context (hidden_paths : list string).
Context (ENABLE_STACKTRACES_LOCALS : bool).

(** The entry [tidy_stacktrace] appends for a frame tuple it keeps. *)
Definition tidied (f : Utils.frame_tuple) : @Utils.trace_entry Locals :=
  let '(frame, path, line_no, func_name, text, _) := f in
  (path, line_no, func_name,
   match text with
   | None | Some [] => ""
   | Some lines => Str.strip (Str.join "" lines)
   end,
   if ENABLE_STACKTRACES_LOCALS then Some (Utils.f_locals frame) else None).

(** The frame tuples whose real path starts with none of [hidden_paths]. *)
Definition shown (f : @Utils.frame_tuple Locals) : Prop :=
  Forall (λ hp, ¬ starts_with (realpath (f.1.1.1.1.2)) hp) hidden_paths.

End tidy_stacktrace_vocabulary.

Section render_stacktrace_vocabulary.

Context {Locals : Type}.
Context (os_path_sep : ascii).
Context (pformat : option Locals → string).

(** The text [render_stacktrace] writes for one entry whose path splits into
    [directory] and [filename]: the five spans with their escaped values,
    the block of the locals when they are shown, and an empty line. *)
Definition entry_html (show_locals : bool) (directory filename : string)
    (e : @Utils.trace_entry Locals) : string :=
  let '(_, lineno, func, code, locals_) := e in
  ("<span class=" +:+ Utils.quoted "djdt-path" +:+ ">")
    +:+ Html.escape directory +:+ "/</span>"
  +:+ ("<span class=" +:+ Utils.quoted "djdt-file" +:+ ">")
    +:+ Html.escape filename +:+ "</span> in"
  +:+ (" <span class=" +:+ Utils.quoted "djdt-func" +:+ ">")
    +:+ Html.escape func +:+ "</span>"
  +:+ ("(<span class=" +:+ Utils.quoted "djdt-lineno" +:+ ">")
    +:+ Html.escape (pretty lineno) +:+ "</span>)" +:+ Str.newline
  +:+ ("  <span class=" +:+ Utils.quoted "djdt-code" +:+ ">")
    +:+ Html.escape code +:+ "</span>" +:+ Str.newline
  +:+ (if show_locals then
         ("  <pre class=" +:+ Utils.quoted "djdt-locals" +:+ ">")
           +:+ Html.escape (pformat locals_) +:+ "</pre>" +:+ Str.newline
       else "")
  +:+ Str.newline.

(** [b] is the text of the entry [e]: its path is split at the last
    separator. *)
Definition rendered (show_locals : bool) (e : @Utils.trace_entry Locals)
    (b : string) : Prop :=
  ∃ directory filename,
    e.1.1.1.1 = directory +:+ String os_path_sep filename ∧
    Str.contains os_path_sep filename = false ∧
    b = entry_html show_locals directory filename e.

End render_stacktrace_vocabulary.

(** * Sample inputs *)

(** A stack as [reversed(get_stack())] gives it under the setting
    [HIDE_IN_STACKTRACES = ("socketserver", "django")]: a view of the
    project, then the toolbar's own code that took the stack. *)
Definition sample_hidden_paths : list string :=
  ["/usr/lib/python3.9/socketserver.py";
   "/usr/lib/python3.9/site-packages/django"].

Definition sample_stack : list (@Utils.frame_tuple (list (string * string))) :=
  [({| Utils.f_locals := [("request", "<WSGIRequest: GET '/'>")] |},
    "/srv/app/views.py", 12, "index",
    Some ["    rows = list(Book.objects.all())" +:+ Str.newline], Some 0);
   ({| Utils.f_locals := [("sql", "SELECT 1")] |},
    "/usr/lib/python3.9/site-packages/debug_toolbar/panels/sql/tracking.py",
    152, "_record",
    Some ["            stacktrace = tidy_stacktrace(reversed(get_stack()))"
          +:+ Str.newline], Some 0)].

(** [os.path.realpath] for a process whose working directory is
    [/srv/app], on paths without symbolic links. *)
Definition sample_realpath (path : string) : string :=
  if Str.startswith path "/" then path else "/srv/app/" +:+ path.

(** A stack as [get_stack()] records it while a view evaluates an
    expression with [eval]: the frame of the evaluated code has the file
    name [<string>] and no source lines. *)
Definition eval_stack : list (@Utils.frame_tuple (list (string * string))) :=
  [({| Utils.f_locals := [("expression", "sum(prices)")] |},
    "/srv/app/views.py", 12, "index",
    Some ["    total = eval(expression)" +:+ Str.newline], Some 0);
   ({| Utils.f_locals := [] |}, "<string>", 1, "<module>", None, None)].

(** A template of twelve lines and a node on its line 2 and on its line 6. *)
Definition sample_lines : list (Z * string) :=
  (λ n, (n, "line " +:+ pretty n)) <$> seqZ 1 12.

Definition sample_template (line : Z) : @Utils.Template string string := {|
  Utils.origin := "index.html";
  Utils.get_exception_info := λ _,
    {| Utils.ei_line := line; Utils.ei_source_lines := sample_lines;
       Utils.ei_name := "index.html" |}
|}.

Definition sample_context (line : Z) : @Utils.TemplateContext string string := {|
  Utils.template := sample_template line;
  Utils.render_context := {| Utils.rc_template := sample_template line |}
|}.

Definition sample_node : @Utils.Node string string := {|
  Utils.node_origin := "index.html";
  Utils.token := "{% for book in books %}"
|}.

Definition sample_toolbar (path : string) : Toolbar.DebugToolbar := {|
  Toolbar.panels :=
    [{| Toolbar.panel_id := "HistoryPanel"; Toolbar.is_historical := false;
        Toolbar.button := "History"; Toolbar.content := path |};
     {| Toolbar.panel_id := "TimerPanel"; Toolbar.is_historical := true;
        Toolbar.button := "Time"; Toolbar.content := "12 ms" |};
     {| Toolbar.panel_id := "RequestPanel"; Toolbar.is_historical := true;
        Toolbar.button := "Request"; Toolbar.content := path |}]
|}.

(** ** For the further properties *)

(** The first and the last character of a string. *)
Definition first_char (s : string) : option ascii :=
  match s with
  | EmptyString => None
  | String c _ => Some c
  end.

Fixpoint last_char (s : string) : option ascii :=
  match s with
  | EmptyString => None
  | String c EmptyString => Some c
  | String _ s' => last_char s'
  end.

(** How many times the character [c] stands in [s]. *)
Fixpoint count_char (c : ascii) (s : string) : nat :=
  match s with
  | EmptyString => 0%nat
  | String d s' => ((if decide (d = c) then 1 else 0) + count_char c s')%nat
  end.

Section frames_vocabulary.

Context {Locals : Type}.
Context (getsourcefile : @Utils.frame_object Locals → option string).

(** The file name [getframeinfo] gives for a frame: the source file when
    [inspect.getsourcefile] finds one, the file name of the code otherwise. *)
Definition frame_filename (frame : @Utils.frame_object Locals) : string :=
  match getsourcefile frame with
  | None | Some EmptyString => Utils.f_code_co_filename frame
  | Some path => path
  end.

(** Where the lines returned by [getframeinfo] start in a source of [n]
    lines, for the line number [lineno] and [context] lines. *)
Definition window_start (lineno context n : Z) : Z :=
  Z.max 0 (Z.min (Z.max (lineno - 1 - context `div` 2) 1) (n - context)).

End frames_vocabulary.

Section template_info_vocabulary.

Context {Origin : Type} `{EqDecision Origin} {Token : Type}.

(** The frame of [get_template_context] itself: the function of that name
    in a file whose name ends with [/debug_toolbar/utils.py]. *)
Definition own_frame (f : @Utils.code_frame Origin Token) : Prop :=
  (∃ front, Utils.co_filename f = front +:+ "/debug_toolbar/utils.py") ∧
  Utils.co_name f = "get_template_context".

(** A frame the loop of [get_template_info] leaves for the next one: not
    the frame of [get_template_context], and either not named [render], or
    with locals [self] and [context] of which [self] is no template node. *)
Definition stepped_over (f : @Utils.code_frame Origin Token) : Prop :=
  ¬ own_frame f ∧
  (Utils.co_name f ≠ "render" ∨
   ∃ self,
     Utils.frame_locals f !! "self" = Some self ∧
     (∀ node, self ≠ Utils.ANode node) ∧
     is_Some (Utils.frame_locals f !! "context")).

(** A frame at which the loop ends without a template: the frame of
    [get_template_context], or a frame named [render] that lacks the local
    [self] or [context], or whose [self] is a template node while its
    [context] is no template context. *)
Definition stops_search (f : @Utils.code_frame Origin Token) : Prop :=
  own_frame f ∨
  (Utils.co_name f = "render" ∧
   (Utils.frame_locals f !! "self" = None ∨
    Utils.frame_locals f !! "context" = None ∨
    ∃ node other,
      Utils.frame_locals f !! "self" = Some (Utils.ANode node) ∧
      Utils.frame_locals f !! "context" = Some other ∧
      ∀ context, other ≠ Utils.AContext context)).

End template_info_vocabulary.

(** ** Sample inputs for the further properties *)

Definition sample_pformat (locals_ : option (list (string * string))) : string :=
  match locals_ with
  | None => "None"
  | Some _ => "{...}"
  end.

Definition sample_trace : list (@Utils.trace_entry (list (string * string))) :=
  [("/srv/app/views.py", 12, "index", "if a < b:",
    Some [("a", "1"); ("b", "2")])].

Definition sample_trace' : list (@Utils.trace_entry (list (string * string))) :=
  [("/srv/app/models.py", 40, "<lambda>", "return x's", None);
   ("/srv/app/urls.py", 3, "resolve", "", None)].

(** The text of a rendered trace. *)
Definition rendered_text (r : result Html.SafeString) : string :=
  match r with
  | Ok text => Html.unsafe text
  | Raise _ => ""
  end.

(** A source of five lines and frames on its lines 1, 3 and 5. *)
Definition sample_source : list string :=
  ["import os" +:+ Str.newline;
   "def index(request):" +:+ Str.newline;
   "    rows = list(qs)" +:+ Str.newline;
   "    return render(request, rows)" +:+ Str.newline;
   "index(None)" +:+ Str.newline].

Definition sample_frame (lineno : Z) (function : string)
    : @Utils.frame_object (list (string * string)) := {|
  Utils.fo_frame := {| Utils.f_locals := [("lineno", pretty lineno)] |};
  Utils.f_lineno := lineno;
  Utils.f_code_co_name := function;
  Utils.f_code_co_filename := "/srv/app/views.py"
|}.

Definition sample_getsourcefile
    (frame : @Utils.frame_object (list (string * string))) : option string :=
  Some (Utils.f_code_co_filename frame).

Definition sample_findsource
    (frame : @Utils.frame_object (list (string * string)))
    : option Utils.source :=
  Some (Utils.TextLines sample_source).

Definition sample_coding (line : string) : option string := None.

Definition sample_decode (encoding line : string) : option string := Some line.

(** Frames as [get_template_info] meets them: a filter called by the node,
    the [render] of a block whose [self] is no node, the [render] of a node,
    and the view. *)
Definition sample_render_frame (self : @Utils.local_value string string)
    : @Utils.code_frame string string := {|
  Utils.co_filename := "/usr/lib/python3.9/site-packages/django/template/base.py";
  Utils.co_name := "render";
  Utils.frame_locals :=
    <["self" := self]>
      (<["context" := Utils.AContext (sample_context 6)]> ∅)
|}.

Definition sample_plain_frame (filename function : string)
    : @Utils.code_frame string string := {|
  Utils.co_filename := filename;
  Utils.co_name := function;
  Utils.frame_locals := ∅
|}.

Definition sample_frames_before : list (@Utils.code_frame string string) :=
  [sample_plain_frame "/srv/app/templatetags/books.py" "price";
   sample_render_frame Utils.AnObject].

Definition sample_frames_after : list (@Utils.code_frame string string) :=
  [sample_plain_frame "/srv/app/views.py" "index"].

(** * Properties *)

(** ** The string methods *)

Lemma string_app_cons (a : ascii) (s r : string) :
  String a s +:+ r = String a (s +:+ r).
Proof. reflexivity. Qed.

Lemma string_app_nil_l (s : string) : "" +:+ s = s.
Proof. reflexivity. Qed.

Lemma string_app_nil_r (s : string) : s +:+ "" = s.
Proof. induction s as [|a s IH]; [done|]. by rewrite string_app_cons, IH. Qed.

Lemma string_app_assoc (s1 s2 s3 : string) :
  (s1 +:+ s2) +:+ s3 = s1 +:+ (s2 +:+ s3).
Proof.
  induction s1 as [|a s1 IH]; [done|]. by rewrite !string_app_cons, IH.
Qed.

Lemma startswith_spec (s p : string) :
  Str.startswith s p = true ↔ starts_with s p.
Proof.
  unfold Str.startswith, starts_with. revert s.
  induction p as [|a p IH]; intros s.
  - destruct s; simpl; split; eauto.
  - destruct s as [|b s]; simpl.
    + split; [done|]. by intros [rest ?].
    + destruct (ascii_dec a b) as [->|Hne].
      * rewrite IH. split.
        -- intros [rest ->]. by exists rest.
        -- intros [rest Hrest]. exists rest.
           rewrite string_app_cons in Hrest. by simplify_eq.
      * split; [done|]. intros [rest Hrest].
        rewrite string_app_cons in Hrest. by simplify_eq.
Qed.

#[global] Instance starts_with_dec (s p : string) : Decision (starts_with s p).
Proof.
  destruct (Str.startswith s p) eqn:E.
  - left. by apply startswith_spec.
  - right. intros H%startswith_spec. congruence.
Defined.

(** ** [tidy_stacktrace] *)

Section tidy_stacktrace_facts.

Context {Locals : Type}.
Context (realpath : string → string).
Context (hidden_paths : list string).
Context (ENABLE_STACKTRACES_LOCALS : bool).

Local Abbreviation omit_path := (Utils.omit_path hidden_paths).
Local Abbreviation tidy_step :=
  (@Utils.tidy_step Locals realpath hidden_paths ENABLE_STACKTRACES_LOCALS).
Local Abbreviation tidy_stacktrace :=
  (@Utils.tidy_stacktrace Locals realpath hidden_paths ENABLE_STACKTRACES_LOCALS).
Local Abbreviation tidied := (@tidied Locals ENABLE_STACKTRACES_LOCALS).
Local Abbreviation shown := (@shown Locals realpath hidden_paths).

(** [omit_path] holds of the paths that start with one of [hidden_paths]. *)
Lemma omit_path_spec (path : string) :
  omit_path path = true ↔ Exists (starts_with path) hidden_paths.
Proof.
  unfold Utils.omit_path. rewrite existsb_exists, Exists_exists.
  split; intros (hp & Hin & Hp); exists hp; split.
  - by apply list_elem_of_In.
  - by apply startswith_spec.
  - by apply list_elem_of_In.
  - by apply startswith_spec.
Qed.

Lemma omit_path_false (path : string) :
  omit_path path = false ↔ Forall (λ hp, ¬ starts_with path hp) hidden_paths.
Proof.
  rewrite <- not_true_iff_false, omit_path_spec.
  rewrite Forall_forall, Exists_exists. split.
  - intros Hno hp Hin Hp. apply Hno. by exists hp.
  - intros Hall (hp & Hin & Hp). by apply (Hall hp).
Qed.

Lemma tidy_step_shown trace f :
  shown f → tidy_step trace f = trace ++ [tidied f].
Proof.
  destruct f as [[[[[frame path] line_no] func_name] text] index].
  unfold shown; simpl. intros Hs%omit_path_false. rewrite Hs.
  by destruct text as [[|]|].
Qed.

Lemma tidy_step_hidden trace f :
  ¬ shown f → tidy_step trace f = trace.
Proof.
  destruct f as [[[[[frame path] line_no] func_name] text] index].
  unfold shown; simpl. rewrite <- omit_path_false.
  by intros ->%not_false_iff_true.
Qed.

Lemma tidy_loop stack trace :
  fold_left tidy_step stack trace = trace ++ (tidied <$> filter shown stack).
Proof.
  revert trace. induction stack as [|f stack IH]; intros trace; simpl.
  - by rewrite app_nil_r.
  - rewrite IH. destruct (decide (shown f)) as [Hs|Hs].
    + rewrite tidy_step_shown, filter_cons_True by done.
      by rewrite <- app_assoc.
    + by rewrite tidy_step_hidden, filter_cons_False by done.
Qed.

(** C1. For every input stack, [tidy_stacktrace] returns exactly the entries
    whose real path does not start with any path of [hidden_paths], in their
    original order; each returned entry is the tuple of the path, the line
    number, the function name, the joined and stripped text (the empty
    string when the text is [None] or empty) and the frame's [f_locals] if
    [ENABLE_STACKTRACES_LOCALS] is set, [None] otherwise. *)
Theorem tidy_stacktrace_spec (stack : list Utils.frame_tuple) :
  tidy_stacktrace stack =
    (λ '(frame, path, line_no, func_name, text, _),
       (path, line_no, func_name,
        match text with
        | None | Some [] => ""
        | Some lines => Str.strip (Str.join "" lines)
        end,
        if ENABLE_STACKTRACES_LOCALS then Some (Utils.f_locals frame) else None))
    <$> filter
          (λ '(_, path, _, _, _, _),
             Forall (λ hidden_path, ¬ starts_with (realpath path) hidden_path)
                    hidden_paths)
          stack.
Proof.
  unfold Utils.tidy_stacktrace. rewrite tidy_loop. simpl. f_equal.
  apply list_filter_iff. by intros [[[[[frame path] line_no] func_name] text] index].
Qed.

(** When the last frame tuple of a stack is not hidden, its entry is the
    last entry of the tidied trace. *)
Lemma tidy_stacktrace_last (stack : list Utils.frame_tuple) f :
  shown f → last (tidy_stacktrace (stack ++ [f])) = Some (tidied f).
Proof.
  intros Hs. unfold Utils.tidy_stacktrace.
  rewrite fold_left_app. simpl. rewrite tidy_step_shown by done.
  apply last_snoc.
Qed.

End tidy_stacktrace_facts.

(** C3. The docstring of [tidy_stacktrace] promises that the last entry of
    the stack, which belongs to the toolbar's own stack-tracing code, is
    removed. The function has no such step: on [sample_stack] the entry of
    the last frame tuple is the last entry of the returned trace. *)
Theorem tidy_stacktrace_keeps_last_entry :
  last (Utils.tidy_stacktrace id sample_hidden_paths false sample_stack) =
    Some ("/usr/lib/python3.9/site-packages/debug_toolbar/panels/sql/tracking.py",
          152, "_record",
          "stacktrace = tidy_stacktrace(reversed(get_stack()))", None).
Proof. reflexivity. Qed.

(** ** [str.rsplit] and [html.escape] *)

Lemma contains_app (c : ascii) (s1 s2 : string) :
  Str.contains c (s1 +:+ s2) = Str.contains c s1 || Str.contains c s2.
Proof.
  induction s1 as [|d s1 IH]; [done|].
  rewrite string_app_cons. simpl. by destruct (decide (d = c)).
Qed.

(** Without the separator, [rsplit] gives the string itself, alone. *)
Lemma rsplit1_without (sep : ascii) (s : string) :
  Str.contains sep s = false → Str.rsplit1 sep s = [s].
Proof.
  induction s as [|c s IH]; simpl; [done|].
  destruct (decide (c = sep)); [done|]. intros Hs. by rewrite IH.
Qed.

(** With the separator, [rsplit] gives what stands before its last
    occurrence and what stands after it. *)
Lemma rsplit1_with (sep : ascii) (s : string) :
  Str.contains sep s = true →
  ∃ directory filename,
    Str.rsplit1 sep s = [directory; filename] ∧
    s = directory +:+ String sep filename ∧
    Str.contains sep filename = false.
Proof.
  induction s as [|c s IH]; simpl; [done|].
  destruct (Str.contains sep s) eqn:Hs.
  - intros _. destruct IH as (d & f & -> & -> & Hf); [done|].
    exists (String c d), f. by rewrite string_app_cons.
  - rewrite (rsplit1_without _ _ Hs).
    destruct (decide (c = sep)) as [->|]; [|done].
    intros _. by exists "", s.
Qed.

Lemma replace_app (c : ascii) (by_ s1 s2 : string) :
  Str.replace c by_ (s1 +:+ s2) = Str.replace c by_ s1 +:+ Str.replace c by_ s2.
Proof.
  induction s1 as [|d s1 IH]; [done|].
  rewrite string_app_cons. simpl. destruct (decide (d = c)).
  - by rewrite IH, string_app_assoc.
  - by rewrite IH, string_app_cons.
Qed.

Lemma escape_app (s1 s2 : string) :
  Html.escape (s1 +:+ s2) = Html.escape s1 +:+ Html.escape s2.
Proof. unfold Html.escape. by rewrite !replace_app. Qed.

Lemma escape_char (c : ascii) :
  Html.escape (String c "") = escaped_char c.
Proof.
  unfold Html.escape, escaped_char. simpl.
  repeat (destruct (decide (c = _)) as [->|?]; [reflexivity|]; simpl).
  reflexivity.
Qed.

(** The five replacements of [html.escape] come to one pass that rewrites
    each character on its own. *)
Lemma escape_cons (c : ascii) (s : string) :
  Html.escape (String c s) = escaped_char c +:+ Html.escape s.
Proof.
  change (String c s) with (String c "" +:+ s).
  by rewrite escape_app, escape_char.
Qed.

(** An escaped string holds none of the characters that open or close a tag
    or an attribute value. *)
Lemma escape_safe (c : ascii) (s : string) :
  c = "<"%char ∨ c = ">"%char ∨ c = "034"%char ∨ c = "'"%char →
  Str.contains c (Html.escape s) = false.
Proof.
  intros Hc. induction s as [|d s IH]; [done|].
  rewrite escape_cons, contains_app, IH, orb_false_r.
  unfold escaped_char.
  repeat (destruct (decide (d = _)) as [->|?];
          [by destruct Hc as [-> | [-> | [-> | ->]]]|]).
  simpl. destruct (decide (d = c)) as [->|?]; [|done].
  by destruct Hc as [-> | [-> | [-> | ->]]].
Qed.

(** ** [render_stacktrace] *)

Section render_stacktrace_facts.

Context {Locals : Type}.
Context (os_path_sep : ascii).
Context (pformat : option Locals → string).
Context (ENABLE_STACKTRACES_LOCALS : bool).

Local Abbreviation render_entries :=
  (@Utils.render_entries Locals os_path_sep pformat).
Local Abbreviation render_stacktrace :=
  (@Utils.render_stacktrace Locals os_path_sep pformat ENABLE_STACKTRACES_LOCALS).
Local Abbreviation entry_html := (@entry_html Locals pformat).
Local Abbreviation rendered := (@rendered Locals os_path_sep pformat).

Lemma format_entry (a1 a2 a3 a4 a5 : string) :
  Str.format Utils.entry_format [a1; a2; a3; a4; a5] =
    Ok (("<span class=" +:+ Utils.quoted "djdt-path" +:+ ">")
          +:+ a1 +:+ "/</span>"
        +:+ ("<span class=" +:+ Utils.quoted "djdt-file" +:+ ">")
          +:+ a2 +:+ "</span> in"
        +:+ (" <span class=" +:+ Utils.quoted "djdt-func" +:+ ">")
          +:+ a3 +:+ "</span>"
        +:+ ("(<span class=" +:+ Utils.quoted "djdt-lineno" +:+ ">")
          +:+ a4 +:+ "</span>)" +:+ Str.newline
        +:+ ("  <span class=" +:+ Utils.quoted "djdt-code" +:+ ">")
          +:+ a5 +:+ "</span>" +:+ Str.newline).
Proof. reflexivity. Qed.

Lemma format_locals (a : string) :
  Str.format Utils.locals_format [a] =
    Ok (("  <pre class=" +:+ Utils.quoted "djdt-locals" +:+ ">")
          +:+ a +:+ "</pre>" +:+ Str.newline).
Proof. reflexivity. Qed.

(** One turn of the loop on an entry whose path holds the separator. *)
Lemma render_entries_cons show_locals e trace html directory filename :
  Str.rsplit1 os_path_sep e.1.1.1.1 = [directory; filename] →
  render_entries show_locals (e :: trace) html =
    render_entries show_locals trace
      (html +:+ entry_html show_locals directory filename e).
Proof.
  destruct e as [[[[abspath lineno] func] code] locals_].
  cbn [fst snd Utils.render_entries]. intros ->.
  cbn [Utils.unpack2 bind]. unfold Html.format_html.
  cbn [fmap list_fmap compose Html.conditional_escape Html.unsafe Html.str].
  rewrite (format_entry (Html.escape directory) (Html.escape filename)
             (Html.escape func) (Html.escape (pretty lineno))
             (Html.escape code)).
  destruct show_locals.
  - rewrite (format_locals (Html.escape (pformat locals_))).
    cbv [bind Html.unsafe]. f_equal. unfold entry_html.
    rewrite !string_app_assoc. reflexivity.
  - cbv [bind Html.unsafe]. f_equal. unfold entry_html.
    rewrite !string_app_assoc. reflexivity.
Qed.

(** One turn of the loop on an entry whose path has no separator: the
    unpacking of the single piece raises [ValueError]. *)
Lemma render_entries_without show_locals e trace html :
  Str.contains os_path_sep e.1.1.1.1 = false →
  render_entries show_locals (e :: trace) html = Raise ValueError.
Proof.
  destruct e as [[[[abspath lineno] func] code] locals_]. simpl. intros Hs.
  by rewrite rsplit1_without.
Qed.

Lemma join_cons (b : string) (bs : list string) :
  Str.join "" (b :: bs) = b +:+ Str.join "" bs.
Proof. destruct bs; simpl; [by rewrite string_app_nil_r|done]. Qed.

Lemma render_entries_ok show_locals trace html :
  Forall (λ e, Str.contains os_path_sep e.1.1.1.1 = true) trace →
  ∃ blocks,
    Forall2 (rendered show_locals) trace blocks ∧
    render_entries show_locals trace html = Ok (html +:+ Str.join "" blocks).
Proof.
  intros Hall. revert html.
  induction Hall as [|e trace He _ IH]; intros html.
  - exists []. split; [constructor|]. simpl. by rewrite string_app_nil_r.
  - destruct (rsplit1_with _ _ He) as (d & f & Hsplit & Hpath & Hf).
    destruct (IH (html +:+ entry_html show_locals d f e)) as (bs & Hbs & Hr).
    exists (entry_html show_locals d f e :: bs). split.
    + constructor; [|done]. by exists d, f.
    + rewrite (render_entries_cons _ _ _ _ _ _ Hsplit), Hr.
      by rewrite join_cons, string_app_assoc.
Qed.

(** When every path of the trace holds the separator, [render_stacktrace]
    returns, marked safe, the texts of the entries one after the other. *)
Lemma render_stacktrace_ok trace :
  Forall (λ e, Str.contains os_path_sep e.1.1.1.1 = true) trace →
  ∃ blocks,
    Forall2 (rendered ENABLE_STACKTRACES_LOCALS) trace blocks ∧
    render_stacktrace trace = Ok (Html.mark_safe (Str.join "" blocks)).
Proof.
  intros Hall. unfold Utils.render_stacktrace.
  destruct (render_entries_ok ENABLE_STACKTRACES_LOCALS trace "" Hall)
    as (bs & Hbs & ->).
  exists bs. by split.
Qed.

Lemma render_entries_raises show_locals trace html :
  Exists (λ e, Str.contains os_path_sep e.1.1.1.1 = false) trace →
  render_entries show_locals trace html = Raise ValueError.
Proof.
  intros Hex. revert html.
  induction Hex as [e trace He|e trace _ IH]; intros html.
  - by apply render_entries_without.
  - destruct (Str.contains os_path_sep e.1.1.1.1) eqn:He.
    + destruct (rsplit1_with _ _ He) as (d & f & Hsplit & _).
      by rewrite (render_entries_cons _ _ _ _ _ _ Hsplit).
    + by apply render_entries_without.
Qed.

(** When a path of the trace has no separator, [render_stacktrace] raises
    [ValueError] and returns nothing. *)
Lemma render_stacktrace_raises trace :
  Exists (λ e, Str.contains os_path_sep e.1.1.1.1 = false) trace →
  render_stacktrace trace = Raise ValueError.
Proof.
  intros Hex. unfold Utils.render_stacktrace.
  by rewrite render_entries_raises.
Qed.

End render_stacktrace_facts.

(** C4. [render_stacktrace] is to return the rendered text for every trace.
    The trace [tidy_stacktrace] builds from [eval_stack] keeps the file name
    [<string>] as the path of its second entry; on this trace the unpacking
    of [abspath.rsplit(os.path.sep, 1)] into two names raises [ValueError]
    and nothing is rendered. *)
Theorem render_stacktrace_no_separator
    (pformat : option (list (string * string)) → string) :
  let trace :=
    Utils.tidy_stacktrace sample_realpath sample_hidden_paths false eval_stack in
  trace = [("/srv/app/views.py", 12, "index", "total = eval(expression)", None);
           ("<string>", 1, "<module>", "", None)] ∧
  Utils.render_stacktrace "/" pformat false trace = Raise ValueError.
Proof. split; reflexivity. Qed.

(** ** [get_template_context] *)

Section get_template_context_facts.

Context {Origin : Type} `{EqDecision Origin} {Token : Type}.

Local Abbreviation Node := (@Utils.Node Origin Token).
Local Abbreviation TemplateContext := (@Utils.TemplateContext Origin Token).

(** The loop over the source lines, from any list built so far. *)
Lemma debug_context_loop (line start end_ : Z)
    (source_lines : list (Z * string)) (acc : list Utils.debug_line) :
  fold_left
    (λ debug_context '(line_num, content),
       if (start <=? line_num) && (line_num <=? end_) then
         debug_context ++
           [{| Utils.num := line_num; Utils.content := content;
               Utils.highlight := bool_decide (line_num = line) |}]
       else debug_context)
    source_lines acc =
  acc ++
    ((λ p, {| Utils.num := p.1; Utils.content := p.2;
              Utils.highlight := bool_decide (p.1 = line) |})
     <$> filter (λ p, start ≤ p.1 ≤ end_) source_lines).
Proof.
  revert acc. induction source_lines as [|[n c] ls IH]; intros acc; simpl.
  - by rewrite app_nil_r.
  - rewrite IH. destruct (decide (start ≤ n ≤ end_)) as [Hin|Hout].
    + rewrite filter_cons_True by done.
      replace ((start <=? n) && (n <=? end_)) with true by lia.
      by rewrite <- app_assoc.
    + rewrite filter_cons_False by done.
      by replace ((start <=? n) && (n <=? end_)) with false by lia.
Qed.

(** C10. When the template source of a node and a context resolves to the
    highlighted line number [L] with the numbered lines [source_lines],
    [get_template_context] with the default [context_lines = 3] returns as
    context exactly the source lines whose number [n] satisfies
    [max(1, L - 3) <= n <= L + 4], in source order, and the entry of a line
    is highlighted if and only if its number is [L]. *)
Theorem get_template_context_window
    (node : Node) (context : TemplateContext)
    (L : Z) (source_lines : list (Z * string)) (name : string) :
  Utils.get_template_source_from_exception_info node context
    = (L, source_lines, name) →
  let info :=
    Utils.get_template_context node context Utils.default_context_lines in
  Utils.name info = name ∧
  Utils.context info =
    ((λ '(n, content),
        {| Utils.num := n; Utils.content := content;
           Utils.highlight := bool_decide (n = L) |})
     <$> filter (λ '(n, _), Z.max 1 (L - 3) ≤ n ≤ L + 4) source_lines) ∧
  Forall (λ d, Utils.highlight d = true ↔ Utils.num d = L) (Utils.context info).
Proof.
  intros Hsrc. unfold Utils.get_template_context, Utils.default_context_lines.
  rewrite Hsrc. cbn zeta. cbn [Utils.name Utils.context].
  rewrite debug_context_loop. simpl.
  replace (L + 1 + 3) with (L + 4) by lia.
  split; [done|]. split.
  - rewrite (list_filter_iff _ (λ '(n, _), Z.max 1 (L - 3) ≤ n ≤ L + 4))
      by (by intros [n c]).
    apply list_fmap_ext. by intros i [n c] _.
  - rewrite Forall_fmap. apply Forall_forall. intros p _. simpl.
    apply bool_decide_eq_true.
Qed.

End get_template_context_facts.

(** ** [get_sorted_request_variable] *)

Section get_sorted_request_variable_facts.

Context {V : Type}.

Lemma strongly_sorted_strict (l : list string) :
  StronglySorted String.le l → NoDup l → StronglySorted str_lt l.
Proof.
  induction 1 as [|k l Hl IH Hk]; intros Hnd; [constructor|].
  apply NoDup_cons in Hnd as [Hnotin Hnd]. constructor; [by apply IH|].
  apply Forall_forall. intros k' Hin. rewrite Forall_forall in Hk.
  split; [by apply Hk|]. intros Hle.
  assert (k = k') as -> by (apply (anti_symm String.le); auto).
  done.
Qed.

(** [sorted] arranges keys without repetition in strictly ascending order
    and neither adds nor loses a key. *)
Lemma sorted_keys (keys : list string) :
  NoDup keys →
  StronglySorted str_lt (Utils.sorted keys) ∧
  ∀ k, k ∈ Utils.sorted keys ↔ k ∈ keys.
Proof.
  intros Hnd. unfold Utils.sorted. split.
  - apply strongly_sorted_strict.
    + apply StronglySorted_merge_sort; apply _.
    + by rewrite merge_sort_Permutation.
  - intros k. by rewrite merge_sort_Permutation.
Qed.

(** No other arrangement of the keys is ascending: the result of [sorted]
    does not depend on the sorting method. *)
Lemma sorted_unique (keys l : list string) :
  Sorted String.le l → l ≡ₚ keys → l = Utils.sorted keys.
Proof.
  intros Hl Hperm. apply (Sorted_unique String.le); [done| |].
  - apply Sorted_merge_sort; apply _.
  - unfold Utils.sorted. by rewrite merge_sort_Permutation.
Qed.

Lemma elem_of_keys {A} (m : gmap string A) (k : string) :
  k ∈ (map_to_list m).*1 ↔ is_Some (m !! k).
Proof.
  rewrite list_elem_of_fmap. split.
  - intros ([k' v] & -> & Hin). apply elem_of_map_to_list in Hin. by exists v.
  - intros [v Hv]. exists (k, v). split; [done|]. by apply elem_of_map_to_list.
Qed.

Lemma fst_pairs {A B} (f : A → B) (l : list A) :
  ((λ k, (k, f k)) <$> l).*1 = l.
Proof. rewrite <- list_fmap_compose. apply list_fmap_id. Qed.

(** C9. For a dict, [get_sorted_request_variable] returns pairs whose keys
    are exactly the keys of the dict in ascending order, each with the value
    the dict has for the key; for an input that is not a dict it returns the
    same list of keys, each with [getlist(key)]. *)
Theorem get_sorted_request_variable_spec (variable : @Utils.request_variable V) :
  let pairs := Utils.get_sorted_request_variable variable in
  StronglySorted str_lt pairs.*1 ∧
  match variable with
  | Utils.Dict d =>
      (∀ k, k ∈ pairs.*1 ↔ is_Some (d !! k)) ∧
      (∀ k x, (k, x) ∈ pairs → ∃ v, d !! k = Some v ∧ x = Utils.Get (Some v))
  | Utils.MultiValue m =>
      (∀ k, k ∈ pairs.*1 ↔ is_Some (m !! k)) ∧
      (∀ k x, (k, x) ∈ pairs → x = Utils.GetList (Utils.getlist m k))
  end.
Proof.
  destruct variable as [d|m]; simpl; rewrite fst_pairs.
  - destruct (sorted_keys (map_to_list d).*1) as [Hsorted Hkeys];
      [apply NoDup_fst_map_to_list|].
    split; [done|]. split.
    + intros k. by rewrite Hkeys, elem_of_keys.
    + intros k x (k' & ? & Hin)%list_elem_of_fmap. simplify_eq.
      apply Hkeys, elem_of_keys in Hin as [v Hv]. exists v. by rewrite Hv.
  - destruct (sorted_keys (map_to_list m).*1) as [Hsorted Hkeys];
      [apply NoDup_fst_map_to_list|].
    split; [done|]. split.
    + intros k. by rewrite Hkeys, elem_of_keys.
    + intros k x (k' & ? & Hin)%list_elem_of_fmap. by simplify_eq.
Qed.

End get_sorted_request_variable_facts.

(** ** The store of historical requests *)

Section store_facts.

Import Toolbar.

Implicit Types (st : Store) (toolbar : DebugToolbar).

Lemma tail_drop {A} (n : nat) (l : list A) : tail (drop n l) = drop (S n) l.
Proof.
  revert l. induction n as [|n IH]; intros [|x l]; simpl; auto.
Qed.

Lemma iter_tail {A} (n : nat) (l : list A) : Nat.iter n tail l = drop n l.
Proof.
  induction n as [|n IH]; simpl; [by rewrite drop_0|].
  by rewrite IH, tail_drop.
Qed.

Lemma store_drop (size : nat) st store_id toolbar :
  store size st store_id toolbar =
    drop (length (setitem st store_id toolbar) - size)
         (setitem st store_id toolbar).
Proof. unfold store. apply iter_tail. Qed.

(** Entering a toolbar under an identifier that is not in the store adds
    one entry, at the end. *)
Lemma setitem_fresh st store_id toolbar :
  fetch st store_id = None →
  setitem st store_id toolbar = st ++ [(store_id, toolbar)].
Proof.
  induction st as [|[k v] st IH]; simpl; [done|].
  destruct (decide (k = store_id)); [done|]. intros Hf. by rewrite IH.
Qed.

Lemma fetch_app st1 st2 store_id :
  fetch (st1 ++ st2) store_id =
    match fetch st1 store_id with
    | Some toolbar => Some toolbar
    | None => fetch st2 store_id
    end.
Proof.
  induction st1 as [|[k v] st1 IH]; simpl; [done|].
  by destruct (decide (k = store_id)).
Qed.

(** The store never holds more than [RESULTS_CACHE_SIZE] entries once a
    request has been stored. *)
Lemma store_length (size : nat) st store_id toolbar :
  (length (store size st store_id toolbar) ≤ size)%nat.
Proof. rewrite store_drop, length_drop. lia. Qed.

(** With room for one entry, the store holds the last request alone. *)
Lemma store_one st store_id toolbar :
  fetch st store_id = None →
  store 1 st store_id toolbar = [(store_id, toolbar)].
Proof.
  intros Hf. rewrite store_drop, setitem_fresh by done.
  rewrite length_app. simpl.
  replace (length st + 1 - 1)%nat with (length st) by lia.
  by rewrite drop_app_length.
Qed.

(** C2. The store holds at most [RESULTS_CACHE_SIZE] entries. When
    [RESULTS_CACHE_SIZE] is 1 and a second request is processed, the
    [store_id] of the first is evicted: the view [history_sidebar] answers
    it with status 200 and the empty JSON object, and answers the latest
    [store_id] with status 200 and the keys of all the historical panels of
    its toolbar. *)
Theorem store_bounded_and_evicts
    st (first latest : string) (toolbar1 toolbar2 : DebugToolbar) :
  fetch st first = None →
  first ≠ latest →
  let st1 := store 1 st first toolbar1 in
  let st2 := store 1 st1 latest toolbar2 in
  (∀ size st0 store_id toolbar,
     (length (store size st0 store_id toolbar) ≤ size)%nat) ∧
  store_ids st1 = [first] ∧
  store_ids st2 = [latest] ∧
  history_sidebar st2 first = {| status_code := 200; json := ∅ |} ∧
  status_code (history_sidebar st2 latest) = 200 ∧
  dom (json (history_sidebar st2 latest)) =
    list_to_set
      (panel_id <$> filter (λ p, is_historical p = true) (panels toolbar2)).
Proof.
  intros Hfresh Hne st1 st2.
  assert (st1 = [(first, toolbar1)]) as Hst1 by by apply store_one.
  assert (st2 = [(latest, toolbar2)]) as Hst2.
  { unfold st2. rewrite Hst1. apply store_one. simpl.
    by destruct (decide (first = latest)). }
  split; [apply store_length|]. rewrite Hst1, Hst2.
  unfold history_sidebar. simpl.
  destruct (decide (latest = first)) as [->|_]; [done|].
  destruct (decide (latest = latest)) as [_|]; [|done]. simpl.
  repeat split; try done.
  rewrite dom_list_to_map_L. f_equal.
  rewrite <- list_fmap_compose. by apply list_fmap_ext.
Qed.

End store_facts.

(** * The functions on sample inputs *)

Example strip_sample :
  Str.strip ("    rows = list(qs)  " +:+ Str.newline) = "rows = list(qs)".
Proof. reflexivity. Qed.

Example rsplit1_sample :
  Str.rsplit1 "/" "/srv/app/views.py" = ["/srv/app"; "views.py"] ∧
  Str.rsplit1 "/" "views.py" = ["views.py"] ∧
  Str.rsplit1 "/" "/srv/app/" = ["/srv/app"; ""].
Proof. repeat split; reflexivity. Qed.

Example escape_sample :
  Html.escape "if a < b && c > 'd':" = "if a &lt; b &amp;&amp; c &gt; &#x27;d&#x27;:".
Proof. reflexivity. Qed.

Example tidy_stacktrace_sample :
  Utils.tidy_stacktrace id sample_hidden_paths true
    (sample_stack ++
     [({| Utils.f_locals := [] |},
       "/usr/lib/python3.9/site-packages/django/db/models/query.py", 280,
       "__iter__", Some ["        self._fetch_all()" +:+ Str.newline], Some 0)])
  = [("/srv/app/views.py", 12, "index", "rows = list(Book.objects.all())",
      Some [("request", "<WSGIRequest: GET '/'>")]);
     ("/usr/lib/python3.9/site-packages/debug_toolbar/panels/sql/tracking.py",
      152, "_record", "stacktrace = tidy_stacktrace(reversed(get_stack()))",
      Some [("sql", "SELECT 1")])].
Proof. reflexivity. Qed.

Example render_stacktrace_sample :
  Utils.render_stacktrace "/" (λ _ : option (list (string * string)), "{}") true
    [("/srv/app/views.py", 12, "index", "if a < b:", None)]
  = Ok (Html.mark_safe
          ("<span class=" +:+ Utils.quoted "djdt-path" +:+ ">/srv/app/</span>"
           +:+ "<span class=" +:+ Utils.quoted "djdt-file" +:+ ">views.py</span> in"
           +:+ " <span class=" +:+ Utils.quoted "djdt-func" +:+ ">index</span>"
           +:+ "(<span class=" +:+ Utils.quoted "djdt-lineno" +:+ ">12</span>)"
           +:+ Str.newline
           +:+ "  <span class=" +:+ Utils.quoted "djdt-code" +:+ ">if a &lt; b:</span>"
           +:+ Str.newline
           +:+ "  <pre class=" +:+ Utils.quoted "djdt-locals" +:+ ">{}</pre>"
           +:+ Str.newline +:+ Str.newline)).
Proof. reflexivity. Qed.

Example get_sorted_request_variable_sample :
  Utils.get_sorted_request_variable
    (Utils.Dict (<["page" := 2]> (<["q" := 7]> (<["order" := 1]> ∅))))
  = [("order", Utils.Get (Some 1)); ("page", Utils.Get (Some 2));
     ("q", Utils.Get (Some 7))] ∧
  Utils.get_sorted_request_variable
    (Utils.MultiValue (<["tag" := [3; 4]]> (<["id" := [9]]> ∅)))
  = [("id", Utils.GetList [9]); ("tag", Utils.GetList [3; 4])].
Proof. split; vm_compute; reflexivity. Qed.

Example get_template_context_sample :
  Utils.num <$> Utils.context
    (Utils.get_template_context sample_node (sample_context 6) 3)
  = [3; 4; 5; 6; 7; 8; 9; 10] ∧
  Utils.num <$> Utils.context
    (Utils.get_template_context sample_node (sample_context 2) 3)
  = [1; 2; 3; 4; 5; 6] ∧
  Utils.highlight <$> Utils.context
    (Utils.get_template_context sample_node (sample_context 2) 3)
  = [false; true; false; false; false; false].
Proof. repeat split; vm_compute; reflexivity. Qed.

(** * The theorems with a premise, at a sample input *)

Lemma get_template_context_window_witness :
  Utils.get_template_source_from_exception_info sample_node (sample_context 6)
    = (6, sample_lines, "index.html") ∧
  Utils.num <$> Utils.context
    (Utils.get_template_context sample_node (sample_context 6)
       Utils.default_context_lines)
  = [3; 4; 5; 6; 7; 8; 9; 10].
Proof.
  assert (Utils.get_template_source_from_exception_info sample_node
            (sample_context 6) = (6, sample_lines, "index.html")) as Hsrc
    by reflexivity.
  split; [exact Hsrc|].
  destruct (get_template_context_window sample_node (sample_context 6)
              6 sample_lines "index.html" Hsrc) as (_ & -> & _).
  reflexivity.
Defined.

Lemma store_bounded_and_evicts_witness :
  let st2 :=
    Toolbar.store 1
      (Toolbar.store 1 [] "5f2b" (sample_toolbar "/json_view/"))
      "a91c" (sample_toolbar "/json_view/?page=2") in
  Toolbar.fetch [] "5f2b" = None ∧
  "5f2b" ≠ "a91c" ∧
  Toolbar.store_ids st2 = ["a91c"] ∧
  Toolbar.history_sidebar st2 "5f2b"
    = {| Toolbar.status_code := 200; Toolbar.json := ∅ |} ∧
  Toolbar.status_code (Toolbar.history_sidebar st2 "a91c") = 200 ∧
  dom (Toolbar.json (Toolbar.history_sidebar st2 "a91c"))
    = list_to_set ["TimerPanel"; "RequestPanel"].
Proof.
  assert ("5f2b" ≠ "a91c") as Hne by discriminate.
  assert (Toolbar.fetch [] "5f2b" = None) as Hfresh by reflexivity.
  destruct (store_bounded_and_evicts [] "5f2b" "a91c"
              (sample_toolbar "/json_view/")
              (sample_toolbar "/json_view/?page=2") Hfresh Hne)
    as (_ & _ & Hids & Hold & Hstatus & Hkeys).
  exact (conj Hfresh (conj Hne (conj Hids (conj Hold (conj Hstatus Hkeys))))).
Defined.

(** * Further properties of [debug_toolbar/utils.py] *)

(** ** [str.strip] *)

Lemma lstrip_first (s : string) (c : ascii) :
  first_char (Str.lstrip s) = Some c → Str.isspace c = false.
Proof.
  induction s as [|d s IH]; simpl; [done|].
  destruct (Str.isspace d) eqn:Hd; [done|]. simpl. by intros [= <-].
Qed.

Lemma rstrip_first (s : string) (c : ascii) :
  first_char (Str.rstrip s) = Some c → first_char s = Some c.
Proof.
  destruct s as [|d s]; simpl; [done|].
  destruct (Str.rstrip s); [|done]. by destruct (Str.isspace d).
Qed.

Lemma rstrip_last (s : string) (c : ascii) :
  last_char (Str.rstrip s) = Some c → Str.isspace c = false.
Proof.
  induction s as [|d s IH]; simpl; [done|].
  destruct (Str.rstrip s) as [|d' s'] eqn:Hs.
  - destruct (Str.isspace d) eqn:Hd; [done|]. simpl. by intros [= <-].
  - apply IH.
Qed.

(** A stripped string neither begins nor ends with white space. *)
Lemma strip_trimmed (s : string) (c : ascii) :
  first_char (Str.strip s) = Some c ∨ last_char (Str.strip s) = Some c →
  Str.isspace c = false.
Proof.
  unfold Str.strip. intros [Hc|Hc].
  - by apply rstrip_first, lstrip_first in Hc.
  - by apply rstrip_last in Hc.
Qed.

(** ** [omit_path] and [tidy_stacktrace] *)

Section tidy_stacktrace_more.

Context {Locals : Type}.
Context (realpath : string → string).
Context (hidden_paths : list string).
Context (ENABLE_STACKTRACES_LOCALS : bool).

Local Abbreviation omit_path := (Utils.omit_path hidden_paths).
Local Abbreviation tidy_stacktrace :=
  (@Utils.tidy_stacktrace Locals realpath hidden_paths ENABLE_STACKTRACES_LOCALS).
Local Abbreviation is_shown := (@shown Locals realpath hidden_paths).

(** X1. A path is omitted exactly when it is one of [hidden_paths] followed
    by any text: the comparison is on characters, not on path components. *)
Theorem omit_path_iff (path : string) :
  omit_path path = true ↔
  ∃ hidden_path rest, hidden_path ∈ hidden_paths ∧ path = hidden_path +:+ rest.
Proof.
  rewrite omit_path_spec, Exists_exists. unfold starts_with. split.
  - intros (hidden_path & Hin & rest & Hpath). by exists hidden_path, rest.
  - intros (hidden_path & rest & Hin & Hpath). exists hidden_path.
    split; [done|]. by exists rest.
Qed.

(** X2. The trace of two stacks put end to end is the two traces put end to
    end. *)
Theorem tidy_stacktrace_app (stack1 stack2 : list Utils.frame_tuple) :
  tidy_stacktrace (stack1 ++ stack2) =
    tidy_stacktrace stack1 ++ tidy_stacktrace stack2.
Proof.
  unfold Utils.tidy_stacktrace.
  rewrite fold_left_app, !(tidy_loop realpath). reflexivity.
Qed.

(** X3. The trace is never longer than the stack, and as long exactly when
    no path of the stack is omitted. *)
Theorem tidy_stacktrace_length (stack : list Utils.frame_tuple) :
  (length (tidy_stacktrace stack) ≤ length stack)%nat ∧
  (length (tidy_stacktrace stack) = length stack ↔
   Forall (λ '(_, path, _, _, _, _), omit_path (realpath path) = false) stack).
Proof.
  unfold Utils.tidy_stacktrace. rewrite (tidy_loop realpath). simpl.
  rewrite length_fmap. split; [apply length_filter|].
  induction stack as [|f stack IH]; [by split; [constructor|]|].
  assert (is_shown f ↔
          (let '(_, path, _, _, _, _) := f in omit_path (realpath path) = false))
    as Hf.
  { destruct f as [[[[[frame path] line_no] func_name] text] index].
    unfold shown. simpl. by rewrite omit_path_false. }
  rewrite Forall_cons, <- Hf, <- IH.
  destruct (decide (is_shown f)) as [Hs|Hs].
  - rewrite filter_cons_True by done. simpl. split.
    + intros Hlen. split; [done|]. lia.
    + intros [_ Hlen]. lia.
  - rewrite filter_cons_False by done. split.
    + intros Hlen. pose proof (length_filter is_shown stack). simpl in Hlen. lia.
    + by intros [? _].
Qed.

(** X4. No text of the trace begins or ends with white space. *)
Theorem tidy_stacktrace_text_trimmed (stack : list Utils.frame_tuple) :
  Forall
    (λ '(_, _, _, text, _),
       ∀ c, first_char text = Some c ∨ last_char text = Some c →
            Str.isspace c = false)
    (tidy_stacktrace stack).
Proof.
  unfold Utils.tidy_stacktrace. rewrite (tidy_loop realpath). simpl.
  rewrite Forall_fmap. apply Forall_forall.
  intros [[[[[frame path] line_no] func_name] text] index] _. simpl.
  destruct text as [[|line lines]|]; intros c.
  - by intros [|].
  - apply strip_trimmed.
  - by intros [|].
Qed.

End tidy_stacktrace_more.

(** ** [render_stacktrace] *)

Lemma count_char_app (c : ascii) (s1 s2 : string) :
  count_char c (s1 +:+ s2) = (count_char c s1 + count_char c s2)%nat.
Proof.
  induction s1 as [|d s1 IH]; [done|].
  rewrite string_app_cons. simpl. rewrite IH. lia.
Qed.

Lemma count_char_absent (c : ascii) (s : string) :
  Str.contains c s = false → count_char c s = 0%nat.
Proof.
  induction s as [|d s IH]; simpl; [done|].
  destruct (decide (d = c)); [done|]. intros Hs. by rewrite IH.
Qed.

Lemma count_char_join (c : ascii) (blocks : list string) :
  count_char c (Str.join "" blocks) = sum_list (count_char c <$> blocks).
Proof.
  induction blocks as [|b blocks IH]; [done|].
  by rewrite join_cons, count_char_app, IH.
Qed.

Section render_stacktrace_more.

Context {Locals : Type}.
Context (os_path_sep : ascii).
Context (pformat : option Locals → string).
Context (ENABLE_STACKTRACES_LOCALS : bool).

Local Abbreviation render_entries :=
  (@Utils.render_entries Locals os_path_sep pformat).
Local Abbreviation render_stacktrace :=
  (@Utils.render_stacktrace Locals os_path_sep pformat ENABLE_STACKTRACES_LOCALS).

(** The text built so far is kept in front of what the loop adds. *)
Lemma render_entries_from show_locals trace html :
  render_entries show_locals trace html =
    match render_entries show_locals trace "" with
    | Ok added => Ok (html +:+ added)
    | Raise e => Raise e
    end.
Proof.
  revert html. induction trace as [|e trace IH]; intros html.
  - simpl. by rewrite string_app_nil_r.
  - destruct (Str.contains os_path_sep e.1.1.1.1) eqn:He.
    + destruct (rsplit1_with _ _ He) as (d & f & Hsplit & _).
      rewrite !(render_entries_cons _ _ _ _ _ _ _ _ Hsplit).
      rewrite (IH (html +:+ _)), (IH ("" +:+ _)).
      destruct (render_entries show_locals trace ""); [|done].
      by rewrite string_app_assoc.
    + by rewrite (render_entries_without _ _ _ _ _ html He),
        (render_entries_without _ _ _ _ _ "" He).
Qed.

Lemma render_entries_app show_locals trace1 trace2 html :
  render_entries show_locals (trace1 ++ trace2) html =
    match render_entries show_locals trace1 html with
    | Ok html1 => render_entries show_locals trace2 html1
    | Raise e => Raise e
    end.
Proof.
  revert html. induction trace1 as [|e trace1 IH]; intros html; [done|].
  destruct (Str.contains os_path_sep e.1.1.1.1) eqn:He.
  - destruct (rsplit1_with _ _ He) as (d & f & Hsplit & _).
    rewrite <- app_comm_cons.
    by rewrite !(render_entries_cons _ _ _ _ _ _ _ _ Hsplit), IH.
  - rewrite <- app_comm_cons.
    by rewrite (render_entries_without _ _ _ _ (trace1 ++ trace2) html He),
      (render_entries_without _ _ _ _ trace1 html He).
Qed.

(** X5. [render_stacktrace] raises [ValueError] exactly when the path of
    some entry holds no separator; it never raises [IndexError], the format
    strings have as many fields as values are passed. *)
Theorem render_stacktrace_raises_iff (trace : list Utils.trace_entry) :
  (render_stacktrace trace = Raise ValueError ↔
   Exists (λ '(abspath, _, _, _, _), Str.contains os_path_sep abspath = false)
          trace) ∧
  render_stacktrace trace ≠ Raise IndexError.
Proof.
  assert (∀ (e : @Utils.trace_entry Locals),
            (let '(abspath, _, _, _, _) := e in
             Str.contains os_path_sep abspath = false)
            ↔ Str.contains os_path_sep e.1.1.1.1 = false) as Hpat
    by by intros [[[[??]?]?]?].
  rewrite (Exists_proper _ _ Hpat _ _ eq_refl).
  unfold Utils.render_stacktrace.
  destruct (decide (Exists (λ e : Utils.trace_entry,
              Str.contains os_path_sep e.1.1.1.1 = false) trace)) as [Hex|Hall].
  - by rewrite render_entries_raises.
  - apply not_Exists_Forall in Hall; [|intros ?; apply _].
    destruct (render_entries_ok os_path_sep pformat ENABLE_STACKTRACES_LOCALS
                trace "") as (blocks & _ & ->).
    { eapply Forall_impl; [exact Hall|]. simpl. intros e.
      by destruct (Str.contains os_path_sep e.1.1.1.1). }
    simpl. split; [|done]. split; [done|]. intros Hex.
    apply Exists_exists in Hex as (e & Hin & He).
    rewrite Forall_forall in Hall. by destruct (Hall e Hin).
Qed.

(** X7. When two traces are rendered, the trace made of the one followed by
    the other is rendered as the one text followed by the other. *)
Theorem render_stacktrace_app (trace1 trace2 : list Utils.trace_entry)
    (html1 html2 : string) :
  render_stacktrace trace1 = Ok (Html.mark_safe html1) →
  render_stacktrace trace2 = Ok (Html.mark_safe html2) →
  render_stacktrace (trace1 ++ trace2) = Ok (Html.mark_safe (html1 +:+ html2)).
Proof.
  unfold Utils.render_stacktrace. intros H1 H2.
  rewrite render_entries_app.
  destruct (render_entries _ trace1 "") as [h1|]; [|done].
  rewrite (render_entries_from _ _ h1).
  destruct (render_entries _ trace2 "") as [h2|]; [|done].
  simpl in *. by simplify_eq.
Qed.

(** A rendered text is made of the texts of the entries. *)
Lemma render_stacktrace_blocks (trace : list Utils.trace_entry) (html : string) :
  render_stacktrace trace = Ok (Html.mark_safe html) →
  ∃ blocks,
    Forall2 (rendered os_path_sep pformat ENABLE_STACKTRACES_LOCALS)
      trace blocks ∧
    html = Str.join "" blocks.
Proof.
  intros Hr.
  destruct (decide (Exists (λ e : Utils.trace_entry,
              Str.contains os_path_sep e.1.1.1.1 = false) trace)) as [Hex|Hall].
  - unfold Utils.render_stacktrace in Hr.
    by rewrite render_entries_raises in Hr.
  - apply not_Exists_Forall in Hall; [|intros ?; apply _].
    destruct (render_entries_ok os_path_sep pformat ENABLE_STACKTRACES_LOCALS
                trace "") as (blocks & Hblocks & Hok).
    { eapply Forall_impl; [exact Hall|]. simpl. intros e.
      by destruct (Str.contains os_path_sep e.1.1.1.1). }
    exists blocks. split; [done|].
    unfold Utils.render_stacktrace in Hr. rewrite Hok in Hr. simpl in Hr.
    by simplify_eq.
Qed.

(** The markup characters of the text of one entry are those of the format
    strings: the escaped values add none. *)
Lemma entry_html_markup show_locals directory filename
    (e : @Utils.trace_entry Locals) (c : ascii) :
  c = "<"%char ∨ c = ">"%char ∨ c = "034"%char ∨ c = "'"%char →
  count_char c (entry_html pformat show_locals directory filename e) =
    if decide (c = "'"%char) then 0%nat
    else if show_locals then 12%nat else 10%nat.
Proof.
  intros Hc. destruct e as [[[[abspath lineno] func] code] locals_].
  unfold entry_html.
  assert (∀ s, count_char c (Html.escape s) = 0%nat) as Hescape.
  { intros s. by apply count_char_absent, escape_safe. }
  destruct show_locals; rewrite !count_char_app, !Hescape;
    by destruct Hc as [-> | [-> | [-> | ->]]].
Qed.

(** X8. In a rendered text the characters [<], [>] and the double quote
    stand ten times for each entry, twelve times when the locals are shown,
    and the apostrophe never: whatever the paths, names, code lines and
    locals hold, they add no markup. *)
Theorem render_stacktrace_markup (trace : list Utils.trace_entry)
    (html : string) (c : ascii) :
  render_stacktrace trace = Ok (Html.mark_safe html) →
  c = "<"%char ∨ c = ">"%char ∨ c = "034"%char ∨ c = "'"%char →
  count_char c html =
    if decide (c = "'"%char) then 0%nat
    else ((if ENABLE_STACKTRACES_LOCALS then 12 else 10) * length trace)%nat.
Proof.
  intros (blocks & Hblocks & ->)%render_stacktrace_blocks Hc.
  rewrite count_char_join.
  induction Hblocks as [|e b trace blocks (d & f & _ & _ & ->) _ IH]; csimpl.
  - by destruct (decide _).
  - rewrite IH, (entry_html_markup _ _ _ _ _ Hc).
    destruct (decide _); [done|]. destruct ENABLE_STACKTRACES_LOCALS; lia.
Qed.

End render_stacktrace_more.

(** ** [getframeinfo] and [get_stack] *)

(** A slice between two positions that are not negative, the first within
    the list. *)
Lemma slice_within {A} (l : list A) (i j : Z) :
  0 ≤ i ≤ Z.of_nat (length l) → 0 ≤ j →
  Utils.slice l i j =
    take (Z.to_nat (Z.min j (Z.of_nat (length l)) - i)) (drop (Z.to_nat i) l).
Proof.
  intros Hi Hj. unfold Utils.slice.
  replace (i <? 0) with false by lia. replace (j <? 0) with false by lia.
  by replace (Z.min i (Z.of_nat (length l))) with i by lia.
Qed.

Section frames_facts.

Context {Locals : Type}.
Context (getsourcefile : @Utils.frame_object Locals → option string).
Context (findsource : @Utils.frame_object Locals → option Utils.source).
Context (coding : string → option string).
Context (decode : string → string → option string).

Local Abbreviation getframeinfo :=
  (Utils.getframeinfo getsourcefile findsource coding decode).
Local Abbreviation get_stack :=
  (Utils.get_stack getsourcefile findsource coding decode).
Local Abbreviation filename_of := (frame_filename getsourcefile).

(** What [getframeinfo] returns for a frame whose source is found as text. *)
Lemma getframeinfo_text (frame : Utils.frame_object) (context : Z)
    (all : list string) :
  0 < context →
  findsource frame = Some (Utils.TextLines all) →
  let n := Z.of_nat (length all) in
  let start := window_start (Utils.f_lineno frame) context n in
  getframeinfo (Utils.AFrame frame) context =
    inr (filename_of frame, Utils.f_lineno frame,
         Utils.f_code_co_name frame,
         Some (take (Z.to_nat (Z.min context (n - start)))
                    (drop (Z.to_nat start) all)),
         Some (Utils.f_lineno frame - 1 - start)).
Proof.
  intros Hcontext Hsrc n start. unfold Utils.getframeinfo. rewrite Hsrc.
  replace (0 <? context) with true by lia.
  fold n. change (Z.max 0 _) with start.
  assert (0 ≤ start ≤ n) as Hstart by (unfold start, window_start; lia).
  rewrite slice_within by (fold n; lia). fold n.
  replace (Z.min (start + context) n - start)
    with (Z.min context (n - start)) by lia.
  unfold frame_filename. by destruct (getsourcefile frame) as [[|??]|].
Qed.

(** X9. For a frame whose source is found as text and a positive [context],
    [getframeinfo] returns a run of consecutive source lines, [context] of
    them or the whole source when it is shorter, and [index] is the place of
    the line [lineno] counted from the start of the run. *)
Theorem getframeinfo_window (frame : Utils.frame_object) (context : Z)
    (all : list string) :
  0 < context →
  findsource frame = Some (Utils.TextLines all) →
  ∃ window index before after,
    getframeinfo (Utils.AFrame frame) context =
      inr (filename_of frame, Utils.f_lineno frame,
           Utils.f_code_co_name frame, Some window, Some index) ∧
    all = before ++ window ++ after ∧
    Z.of_nat (length window) = Z.min context (Z.of_nat (length all)) ∧
    index = Utils.f_lineno frame - 1 - Z.of_nat (length before).
Proof.
  intros Hcontext Hsrc.
  pose proof (getframeinfo_text frame context all Hcontext Hsrc) as Hinfo.
  simpl in Hinfo.
  set (n := Z.of_nat (length all)) in *.
  set (start := window_start (Utils.f_lineno frame) context n) in *.
  assert (0 ≤ start ≤ n ∧ (context ≤ n → start ≤ n - context) ∧
          (n < context → start = 0)) as (Hstart & Hfits & Hshort)
    by (unfold start, window_start; lia).
  set (k := Z.to_nat (Z.min context (n - start))) in *.
  exists (take k (drop (Z.to_nat start) all)), (Utils.f_lineno frame - 1 - start),
    (take (Z.to_nat start) all), (drop k (drop (Z.to_nat start) all)).
  split; [done|]. rewrite !take_drop. split; [done|].
  rewrite !length_take, length_drop. unfold k. fold n. lia.
Qed.

(** X10. From the second line of the source on, the line at [index] of the
    lines [getframeinfo] returns is the line [lineno] of the source. *)
Theorem getframeinfo_current_line (frame : Utils.frame_object) (context : Z)
    (all : list string) :
  0 < context →
  findsource frame = Some (Utils.TextLines all) →
  2 ≤ Utils.f_lineno frame ≤ Z.of_nat (length all) →
  ∃ window index line,
    getframeinfo (Utils.AFrame frame) context =
      inr (filename_of frame, Utils.f_lineno frame,
           Utils.f_code_co_name frame, Some window, Some index) ∧
    0 ≤ index ∧
    all !! Z.to_nat (Utils.f_lineno frame - 1) = Some line ∧
    window !! Z.to_nat index = Some line.
Proof.
  intros Hcontext Hsrc Hlineno.
  pose proof (getframeinfo_text frame context all Hcontext Hsrc) as Hinfo.
  simpl in Hinfo.
  set (n := Z.of_nat (length all)) in *.
  set (start := window_start (Utils.f_lineno frame) context n) in *.
  assert (0 ≤ start ≤ Utils.f_lineno frame - 1 ∧
          Utils.f_lineno frame - 1 - start < Z.min context (n - start))
    as (Hstart & Hindex).
  { unfold start, window_start.
    pose proof (Z.div_pos context 2). pose proof (Z.div_lt context 2). lia. }
  destruct (lookup_lt_is_Some_2 all (Z.to_nat (Utils.f_lineno frame - 1)))
    as [line Hline]; [lia|].
  eexists _, _, line. split; [exact Hinfo|]. split; [lia|]. split; [done|].
  rewrite lookup_take_lt by lia. rewrite lookup_drop.
  by replace (Z.to_nat start + Z.to_nat (Utils.f_lineno frame - 1 - start))%nat
    with (Z.to_nat (Utils.f_lineno frame - 1)) by lia.
Qed.

(** X11. On the first line of a source longer than [context] lines, the
    lines [getframeinfo] returns start at the second line and [index] is
    [-1]: the line [lineno] is not among them. *)
Theorem getframeinfo_first_line (frame : Utils.frame_object) (context : Z)
    (all : list string) :
  0 < context < Z.of_nat (length all) →
  findsource frame = Some (Utils.TextLines all) →
  Utils.f_lineno frame = 1 →
  getframeinfo (Utils.AFrame frame) context =
    inr (filename_of frame, 1, Utils.f_code_co_name frame,
         Some (take (Z.to_nat context) (drop 1 all)), Some (-1)).
Proof.
  intros Hcontext Hsrc Hlineno.
  pose proof (getframeinfo_text frame context all (proj1 Hcontext) Hsrc)
    as Hinfo.
  simpl in Hinfo. rewrite Hlineno in Hinfo.
  assert (window_start 1 context (Z.of_nat (length all)) = 1) as Hstart.
  { unfold window_start. pose proof (Z.div_pos context 2). lia. }
  rewrite Hstart in Hinfo. rewrite Hinfo. do 4 f_equal.
  replace (Z.to_nat (Z.min context (Z.of_nat (length all) - 1)))
    with (Z.to_nat context) by lia.
  done.
Qed.


(** The records collected so far are kept in front of those the loop of
    [get_stack] adds. *)
Lemma get_stack_from_acc (frames : list Utils.frame_object) (context : Z)
    (framelist : list Utils.frame_tuple) :
  Utils.get_stack_from getsourcefile findsource coding decode
    frames context framelist =
  match get_stack frames context with
  | inr added => inr (framelist ++ added)
  | inl e => inl e
  end.
Proof.
  unfold Utils.get_stack. revert framelist.
  induction frames as [|frame frames IH]; intros framelist.
  - simpl. by rewrite app_nil_r.
  - simpl. destruct (getframeinfo (Utils.AFrame frame) context)
      as [e|[[[[filename lineno] function] lines] index]]; [done|].
    rewrite (IH (framelist ++ _)), (IH [_]).
    destruct (Utils.get_stack_from _ _ _ _ frames context []); [done|].
    by rewrite <- app_assoc.
Qed.

Lemma get_stack_cons (frame : Utils.frame_object)
    (frames : list Utils.frame_object) (context : Z) :
  get_stack (frame :: frames) context =
    match getframeinfo (Utils.AFrame frame) context with
    | inl e => inl e
    | inr (filename, lineno, function, lines, index) =>
        match get_stack frames context with
        | inr added =>
            inr ((Utils.fo_frame frame, filename, lineno, function, lines, index)
                 :: added)
        | inl e => inl e
        end
    end.
Proof.
  unfold Utils.get_stack at 1. simpl.
  destruct (getframeinfo (Utils.AFrame frame) context)
    as [e|[[[[filename lineno] function] lines] index]]; [done|].
  by rewrite get_stack_from_acc.
Qed.


(** With one line of context, from the second line of the source on, the
    lines [getframeinfo] returns are the line [lineno] alone. *)
Lemma getframeinfo_one_line (frame : Utils.frame_object)
    (all : list string) (line : string) :
  findsource frame = Some (Utils.TextLines all) →
  2 ≤ Utils.f_lineno frame →
  all !! Z.to_nat (Utils.f_lineno frame - 1) = Some line →
  getframeinfo (Utils.AFrame frame) 1 =
    inr (filename_of frame, Utils.f_lineno frame,
         Utils.f_code_co_name frame, Some [line], Some 0).
Proof.
  intros Hsrc Hlineno Hline.
  pose proof (lookup_lt_Some _ _ _ Hline) as Hlt.
  rewrite (getframeinfo_text frame 1 all) by done. simpl.
  assert (window_start (Utils.f_lineno frame) 1 (Z.of_nat (length all))
          = Utils.f_lineno frame - 1) as ->.
  { unfold window_start. change (1 `div` 2) with 0. lia. }
  rewrite (drop_S _ _ _ Hline).
  replace (Z.to_nat (Z.min 1 _)) with 1%nat by lia. simpl.
  do 3 f_equal. lia.
Qed.

Context (realpath : string → string).
Context (hidden_paths : list string).
Context (ENABLE_STACKTRACES_LOCALS : bool).

Local Abbreviation tidy_stacktrace :=
  (@Utils.tidy_stacktrace Locals realpath hidden_paths ENABLE_STACKTRACES_LOCALS).

Lemma tidy_stacktrace_cons (f : Utils.frame_tuple)
    (stack : list Utils.frame_tuple) :
  tidy_stacktrace (f :: stack) =
    Utils.tidy_step realpath hidden_paths ENABLE_STACKTRACES_LOCALS [] f
    ++ tidy_stacktrace stack.
Proof.
  unfold Utils.tidy_stacktrace. simpl. by rewrite !(tidy_loop realpath).
Qed.

(** X13. The trace of the stack that [get_stack] takes with one line of
    context has, for each frame whose file is not under a hidden path and
    in the order of the frames, the file name, the line number, the name of
    the function, the stripped source line of that number, and the locals
    of the frame when they are enabled; this for frames whose source is
    found as text and which are past its first line. *)
Theorem tidy_stacktrace_get_stack (frames : list Utils.frame_object) :
  Forall
    (λ frame, ∃ all,
       findsource frame = Some (Utils.TextLines all) ∧
       2 ≤ Utils.f_lineno frame ≤ Z.of_nat (length all))
    frames →
  ∃ stack,
    get_stack frames 1 = inr stack ∧
    Forall2
      (λ frame '(path, line_no, func_name, text, frame_locals),
         path = filename_of frame ∧
         line_no = Utils.f_lineno frame ∧
         func_name = Utils.f_code_co_name frame ∧
         (∃ all line,
            findsource frame = Some (Utils.TextLines all) ∧
            all !! Z.to_nat (Utils.f_lineno frame - 1) = Some line ∧
            text = Str.strip line) ∧
         frame_locals =
           if ENABLE_STACKTRACES_LOCALS
           then Some (Utils.f_locals (Utils.fo_frame frame)) else None)
      (filter
         (λ frame,
            Utils.omit_path hidden_paths (realpath (filename_of frame)) = false)
         frames)
      (tidy_stacktrace stack).
Proof.
  induction 1 as [|frame frames (all & Hsrc & Hlineno) _ (stack & Hstack & IH)].
  - exists []. split; [done|]. constructor.
  - destruct (lookup_lt_is_Some_2 all (Z.to_nat (Utils.f_lineno frame - 1)))
      as [line Hline]; [lia|].
    eexists. split.
    { rewrite get_stack_cons, (getframeinfo_one_line frame all line), Hstack;
        [done|done|lia|done]. }
    rewrite tidy_stacktrace_cons. simpl.
    destruct (Utils.omit_path hidden_paths (realpath (filename_of frame)))
      eqn:Homit.
    + by rewrite filter_cons_False by (by rewrite Homit).
    + rewrite filter_cons_True by done. constructor; [|done].
      repeat split; try done. by exists all, line.
Qed.

End frames_facts.

(** ** [get_template_info] *)

Lemma endswith_spec (s p : string) :
  Str.endswith s p = true ↔ ∃ front, s = front +:+ p.
Proof.
  induction s as [|c s IH]; simpl.
  - destruct (decide ("" = p)) as [<-|Hne].
    + split; [by exists ""|done].
    + split; [done|]. intros [[|??] Hfront]; [by destruct Hne|done].
  - destruct (decide (String c s = p)) as [<-|Hne].
    + split; [by exists ""|done].
    + rewrite IH. split.
      * intros [front ->]. by exists (String c front).
      * intros [[|d front] Hfront]; [by destruct Hne|].
        rewrite string_app_cons in Hfront. exists front. by simplify_eq.
Qed.

Section get_template_info_facts.

Context {Origin : Type} `{EqDecision Origin} {Token : Type}.

Local Abbreviation code_frame := (@Utils.code_frame Origin Token).

Lemma own_frame_test (f : code_frame) :
  Str.endswith (Utils.co_filename f) "/debug_toolbar/utils.py"
  && bool_decide (Utils.co_name f = "get_template_context") = true
  ↔ own_frame f.
Proof.
  unfold own_frame.
  by rewrite andb_true_iff, endswith_spec, bool_decide_eq_true.
Qed.

Lemma walk_frames_stepped_over (f : code_frame) (f_back : list code_frame) :
  stepped_over f →
  Utils.walk_frames (f :: f_back) = Utils.walk_frames f_back.
Proof.
  intros [Hown Hstep]. simpl.
  destruct (_ && _) eqn:Htest; [by apply own_frame_test in Htest|].
  destruct Hstep as [Hname|(self & -> & Hself & [context ->])].
  - by rewrite bool_decide_eq_false_2.
  - destruct (bool_decide (Utils.co_name f = "render")); [|done].
    destruct self; [|done..].
    by destruct (Hself node).
Qed.

Lemma walk_frames_skip (before frames : list code_frame) :
  Forall stepped_over before →
  Utils.walk_frames (before ++ frames) = Utils.walk_frames frames.
Proof.
  induction 1 as [|f before Hf _ IH]; [done|].
  by rewrite <- app_comm_cons, walk_frames_stepped_over.
Qed.

(** X14. [get_template_info] returns the template context of the first
    frame named [render] whose [self] is a template node and whose
    [context] is a template context, when the frames before it are stepped
    over. *)
Theorem get_template_info_found (before after : list code_frame)
    (f : code_frame) node context :
  Forall stepped_over before →
  Utils.co_name f = "render" →
  Utils.frame_locals f !! "self" = Some (Utils.ANode node) →
  Utils.frame_locals f !! "context" = Some (Utils.AContext context) →
  Utils.get_template_info (before ++ f :: after) =
    Some (Utils.get_template_context node context 3).
Proof.
  intros Hbefore Hname Hself Hcontext. unfold Utils.get_template_info.
  rewrite walk_frames_skip by done. simpl.
  rewrite Hname, Hself, Hcontext. simpl.
  destruct (Str.endswith _ _); done.
Qed.

(** X15. [get_template_info] returns [None] when the first frame that is
    not stepped over is the frame of [get_template_context] or a frame
    named [render] without a usable [self] and [context], whatever frames
    come after it. *)
Theorem get_template_info_stops (before after : list code_frame)
    (f : code_frame) :
  Forall stepped_over before →
  stops_search f →
  Utils.get_template_info (before ++ f :: after) = None.
Proof.
  intros Hbefore Hstop. unfold Utils.get_template_info.
  rewrite walk_frames_skip by done. simpl.
  destruct (_ && _) eqn:Htest; [done|].
  destruct Hstop as [Hown|[Hname Hlocals]].
  { apply own_frame_test in Hown. congruence. }
  rewrite bool_decide_eq_true_2 by done.
  destruct Hlocals as [->|[Hcontext|(node & other & -> & -> & Hother)]].
  - done.
  - rewrite Hcontext. by destruct (Utils.frame_locals f !! "self").
  - destruct other; [done| |done]. by destruct (Hother context).
Qed.

(** X16. [get_template_info] returns [None] when every frame is stepped
    over, as on a stack without a frame named [render]. *)
Theorem get_template_info_none (frames : list code_frame) :
  Forall stepped_over frames →
  Utils.get_template_info frames = None.
Proof.
  intros Hall. unfold Utils.get_template_info.
  rewrite <- (app_nil_r frames), walk_frames_skip by done. done.
Qed.

End get_template_info_facts.

(** ** [get_template_context], for any number of context lines *)

Lemma filter_fmap {A B} (f : A → B) (P : B → Prop)
    `{!∀ y, Decision (P y)} (l : list A) :
  filter P (f <$> l) = f <$> filter (λ x, P (f x)) l.
Proof.
  induction l as [|x l IH]; [done|]. csimpl.
  rewrite !filter_cons, IH. by destruct (decide (P (f x))).
Qed.

Section get_template_context_more.

Context {Origin : Type} `{EqDecision Origin} {Token : Type}.

Local Abbreviation Node := (@Utils.Node Origin Token).
Local Abbreviation TemplateContext := (@Utils.TemplateContext Origin Token).

(** The context for any [context_lines]: the source lines of the window. *)
Lemma get_template_context_lines (node : Node) (context : TemplateContext)
    (context_lines L : Z) (source_lines : list (Z * string)) (name : string) :
  Utils.get_template_source_from_exception_info node context
    = (L, source_lines, name) →
  Utils.context (Utils.get_template_context node context context_lines) =
    ((λ p, {| Utils.num := p.1; Utils.content := p.2;
              Utils.highlight := bool_decide (p.1 = L) |})
     <$> filter (λ p, Z.max 1 (L - context_lines) ≤ p.1 ≤ L + 1 + context_lines)
           source_lines).
Proof.
  intros Hsrc. unfold Utils.get_template_context. rewrite Hsrc.
  cbn zeta. cbn [Utils.context]. by rewrite debug_context_loop.
Qed.

(** Numbers without repetition that lie between two bounds are no more than
    the bounds leave room for. *)
Lemma length_between (l : list Z) (a b : Z) :
  NoDup l → Forall (λ n, a ≤ n ≤ b) l →
  Z.of_nat (length l) ≤ Z.max 0 (b - a + 1).
Proof.
  intros Hnd Hall.
  assert (l ⊆+ seqZ a (b - a + 1)) as Hsub.
  { apply NoDup_submseteq; [done|]. intros n Hn.
    rewrite Forall_forall in Hall. apply elem_of_seqZ.
    specialize (Hall n Hn). lia. }
  apply submseteq_length in Hsub. rewrite length_seqZ in Hsub. lia.
Qed.

(** X17. When no line number comes twice in the source lines, the context
    has at most [2 * context_lines + 2] entries, none when [context_lines]
    is negative, and at most one of them is highlighted. *)
Theorem get_template_context_size (node : Node) (context : TemplateContext)
    (context_lines L : Z) (source_lines : list (Z * string)) (name : string) :
  Utils.get_template_source_from_exception_info node context
    = (L, source_lines, name) →
  NoDup source_lines.*1 →
  let debug_context :=
    Utils.context (Utils.get_template_context node context context_lines) in
  Z.of_nat (length debug_context) ≤ Z.max 0 (2 * context_lines + 2) ∧
  (length (filter (λ d, Utils.highlight d = true) debug_context) ≤ 1)%nat.
Proof.
  intros Hsrc Hnd debug_context. unfold debug_context.
  rewrite (get_template_context_lines _ _ _ _ _ _ Hsrc).
  set (window := filter _ source_lines).
  assert (NoDup window.*1) as Hwindow.
  { apply (sublist_NoDup _ _ Hnd), fmap_sublist, sublist_filter. }
  split.
  - rewrite length_fmap, <- (length_fmap fst).
    etrans; [apply (length_between _ (Z.max 1 (L - context_lines))
                      (L + 1 + context_lines)); [done|]|lia].
    rewrite Forall_fmap. apply Forall_forall. intros p Hp. simpl.
    by apply list_elem_of_filter in Hp as [Hp _].
  - rewrite filter_fmap, length_fmap. simpl.
    cut (Z.of_nat (length (filter (λ p : Z * string,
           bool_decide (p.1 = L) = true) window)) ≤ Z.max 0 (L - L + 1)).
    { lia. }
    rewrite <- (length_fmap fst). apply length_between.
    + apply (sublist_NoDup _ _ Hwindow), fmap_sublist, sublist_filter.
    + rewrite Forall_fmap. apply Forall_forall. intros p Hp. simpl.
      apply list_elem_of_filter in Hp as [Hp%bool_decide_eq_true _]. lia.
Qed.

(** X18. The source line of number [L] stands highlighted in the context
    exactly when [L] is at least 1 and [context_lines] is not negative. *)
Theorem get_template_context_highlighted (node : Node)
    (context : TemplateContext) (context_lines L : Z)
    (source_lines : list (Z * string)) (name content : string) :
  Utils.get_template_source_from_exception_info node context
    = (L, source_lines, name) →
  {| Utils.num := L; Utils.content := content; Utils.highlight := true |}
    ∈ Utils.context (Utils.get_template_context node context context_lines)
  ↔ (L, content) ∈ source_lines ∧ 1 ≤ L ∧ 0 ≤ context_lines.
Proof.
  intros Hsrc. rewrite (get_template_context_lines _ _ _ _ _ _ Hsrc).
  rewrite list_elem_of_fmap. split.
  - intros ([n c] & Heq & Hin). simpl in Heq.
    apply list_elem_of_filter in Hin as [Hwindow Hin]. simpl in Hwindow.
    injection Heq as <- <- _. split; [done|]. lia.
  - intros (Hin & HL & Hc). exists (L, content). simpl.
    rewrite bool_decide_eq_true_2 by done. split; [done|].
    apply list_elem_of_filter. simpl. split; [lia|done].
Qed.

End get_template_context_more.

(** ** [get_sorted_request_variable] as a list of items *)

Section get_sorted_request_variable_more.

Context {V : Type}.

Lemma lookup_sorted_pairs {A B} (m : gmap string A) (g : string → B)
    (k : string) :
  (list_to_map ((λ k, (k, g k)) <$> Utils.sorted (map_to_list m).*1)
     : gmap string B) !! k =
    (λ _, g k) <$> m !! k.
Proof.
  destruct (sorted_keys (map_to_list m).*1) as [Hsorted Hkeys];
    [apply NoDup_fst_map_to_list|].
  assert (NoDup (Utils.sorted (map_to_list m).*1)) as Hnd.
  { unfold Utils.sorted. rewrite merge_sort_Permutation.
    apply NoDup_fst_map_to_list. }
  destruct (m !! k) as [v|] eqn:Hk; simpl.
  - apply elem_of_list_to_map_1; [by rewrite fst_pairs|].
    apply list_elem_of_fmap. exists k. split; [done|].
    apply Hkeys, elem_of_keys. by exists v.
  - apply not_elem_of_list_to_map_1. rewrite fst_pairs, Hkeys, elem_of_keys.
    rewrite Hk. by intros [??].
Qed.

(** X19. The pairs [get_sorted_request_variable] returns are the items of
    its argument: there are as many as keys, and the dictionary built from
    them maps each key to the value of the argument, for a dict, or to the
    list of its values, for another argument. *)
Theorem get_sorted_request_variable_items
    (variable : @Utils.request_variable V) :
  let pairs := Utils.get_sorted_request_variable variable in
  match variable with
  | Utils.Dict d =>
      length pairs = size d ∧
      (list_to_map pairs : gmap string Utils.variable_value)
        = (λ v, Utils.Get (Some v)) <$> d
  | Utils.MultiValue m =>
      length pairs = size m ∧
      (list_to_map pairs : gmap string Utils.variable_value)
        = Utils.GetList <$> m
  end.
Proof.
  assert (∀ A (m : gmap string A),
            length (Utils.sorted (map_to_list m).*1) = size m) as Hlen.
  { intros A m. unfold Utils.sorted.
    by rewrite merge_sort_Permutation, length_fmap, length_map_to_list. }
  destruct variable as [d|m]; simpl; rewrite length_fmap, Hlen.
  - split; [done|]. apply map_eq. intros k.
    rewrite lookup_sorted_pairs, lookup_fmap.
    by destruct (d !! k).
  - split; [done|]. apply map_eq. intros k.
    rewrite lookup_sorted_pairs, lookup_fmap. unfold Utils.getlist.
    by destruct (m !! k).
Qed.

End get_sorted_request_variable_more.

(** ** [ThreadCollector] *)

Section thread_collector_facts.

Context {Thread : Type} `{Countable Thread} {Item : Type}.
Context (current_thread : Thread).

Local Abbreviation ThreadCollector := (@Utils.ThreadCollector Thread _ _ Item).
Local Abbreviation get_collection := (Utils.get_collection current_thread).
Local Abbreviation clear_collection := (Utils.clear_collection current_thread).
Local Abbreviation collect := (Utils.collect current_thread).

(** The thread an optional argument [thread] stands for. *)
Local Abbreviation thread_of := (default current_thread).

Lemma collections_collect (self : ThreadCollector) (item : Item)
    (thread : option Thread) :
  Utils.collections (collect self item thread) =
    <[thread_of thread :=
        default [] (Utils.collections self !! thread_of thread) ++ [item]]>
      (Utils.collections self).
Proof.
  unfold Utils.collect, Utils.get_collection.
  destruct (Utils.collections self !! thread_of thread) as [l|] eqn:Hl; simpl.
  - by rewrite Hl.
  - by rewrite lookup_insert_eq, insert_insert_eq.
Qed.

Lemma get_collection_list (self : ThreadCollector) (thread : option Thread) :
  (get_collection self thread).2 =
    default [] (Utils.collections self !! thread_of thread).
Proof.
  unfold Utils.get_collection.
  destruct (Utils.collections self !! thread_of thread) as [l|] eqn:Hl; simpl.
  - by rewrite Hl.
  - by rewrite lookup_insert_eq.
Qed.

(** X20. After items are collected for a thread, one after the other, the
    collection of the thread is what it was before followed by the items in
    the order they were collected. *)
Theorem collect_all (self : ThreadCollector) (items : list Item)
    (thread : option Thread) :
  (get_collection (foldl (λ self item, collect self item thread) self items)
     thread).2
  = (get_collection self thread).2 ++ items.
Proof.
  revert self. induction items as [|item items IH]; intros self; cbn [foldl].
  - by rewrite app_nil_r.
  - rewrite IH, !get_collection_list, collections_collect, lookup_insert_eq.
    simpl. by rewrite <- app_assoc.
Qed.

(** X21. Collecting an item, clearing the collection and asking for the
    collection of one thread leave the collection of every other thread as
    it is. *)
Theorem other_threads_untouched (self : ThreadCollector) (item : Item)
    (thread : option Thread) (other : Thread) :
  other ≠ thread_of thread →
  Utils.collections (collect self item thread) !! other
    = Utils.collections self !! other ∧
  Utils.collections (clear_collection self thread) !! other
    = Utils.collections self !! other ∧
  Utils.collections (get_collection self thread).1 !! other
    = Utils.collections self !! other.
Proof.
  intros Hother. repeat split.
  - by rewrite collections_collect, lookup_insert_ne.
  - unfold Utils.clear_collection.
    destruct (Utils.collections self !! thread_of thread); simpl; [|done].
    by rewrite lookup_delete_ne.
  - unfold Utils.get_collection.
    destruct (Utils.collections self !! thread_of thread); simpl; [done|].
    by rewrite lookup_insert_ne.
Qed.

Lemma collections_collect_all (self : ThreadCollector) (items : list Item)
    (thread : option Thread) :
  delete (thread_of thread)
    (Utils.collections
       (foldl (λ self item, collect self item thread) self items))
  = delete (thread_of thread) (Utils.collections self).
Proof.
  revert self. induction items as [|item items IH]; intros self; cbn [foldl].
  - done.
  - by rewrite IH, collections_collect, delete_insert_eq.
Qed.

(** X22. [clear_collection] undoes whatever was collected for the thread:
    afterwards [collections] is what it was before the items were
    collected, without an entry for the thread, and [get_collection] gives
    the thread an empty collection. *)
Theorem clear_collection_forgets (self : ThreadCollector) (items : list Item)
    (thread : option Thread) :
  let collected := foldl (λ self item, collect self item thread) self items in
  Utils.collections (clear_collection collected thread)
    = delete (thread_of thread) (Utils.collections self) ∧
  (get_collection (clear_collection collected thread) thread).2 = [].
Proof.
  intros collected.
  assert (Utils.collections (clear_collection collected thread)
          = delete (thread_of thread) (Utils.collections self)) as Hclear.
  { rewrite <- (collections_collect_all self items thread). fold collected.
    unfold Utils.clear_collection.
    destruct (Utils.collections collected !! thread_of thread) eqn:Hl; simpl.
    - done.
    - by rewrite delete_id. }
  split; [done|].
  by rewrite get_collection_list, Hclear, lookup_delete_eq.
Qed.

End thread_collector_facts.

(** * The further theorems with a premise, at sample inputs *)

Lemma render_stacktrace_ok_witness :
  Forall (λ e : Utils.trace_entry, Str.contains "/" e.1.1.1.1 = true)
    sample_trace' ∧
  ∃ blocks,
    Forall2 (rendered "/" sample_pformat false) sample_trace' blocks ∧
    Utils.render_stacktrace "/" sample_pformat false sample_trace'
      = Ok (Html.mark_safe (Str.join "" blocks)).
Proof.
  assert (Forall (λ e : Utils.trace_entry, Str.contains "/" e.1.1.1.1 = true)
            sample_trace') as Hpaths
    by (repeat constructor).
  split; [exact Hpaths|].
  exact (render_stacktrace_ok "/" sample_pformat false sample_trace' Hpaths).
Defined.

Lemma render_stacktrace_app_witness :
  let html1 :=
    rendered_text (Utils.render_stacktrace "/" sample_pformat true sample_trace) in
  let html2 :=
    rendered_text (Utils.render_stacktrace "/" sample_pformat true sample_trace') in
  Utils.render_stacktrace "/" sample_pformat true sample_trace
    = Ok (Html.mark_safe html1) ∧
  Utils.render_stacktrace "/" sample_pformat true sample_trace'
    = Ok (Html.mark_safe html2) ∧
  Utils.render_stacktrace "/" sample_pformat true (sample_trace ++ sample_trace')
    = Ok (Html.mark_safe (html1 +:+ html2)).
Proof.
  intros html1 html2.
  assert (Utils.render_stacktrace "/" sample_pformat true sample_trace
          = Ok (Html.mark_safe html1)) as H1 by reflexivity.
  assert (Utils.render_stacktrace "/" sample_pformat true sample_trace'
          = Ok (Html.mark_safe html2)) as H2 by reflexivity.
  exact (conj H1 (conj H2
    (render_stacktrace_app "/" sample_pformat true sample_trace sample_trace'
       html1 html2 H1 H2))).
Defined.

Lemma render_stacktrace_markup_witness :
  let html :=
    rendered_text (Utils.render_stacktrace "/" sample_pformat true sample_trace') in
  Utils.render_stacktrace "/" sample_pformat true sample_trace'
    = Ok (Html.mark_safe html) ∧
  count_char "<" html = 24%nat ∧
  count_char "'" html = 0%nat.
Proof.
  intros html.
  assert (Utils.render_stacktrace "/" sample_pformat true sample_trace'
          = Ok (Html.mark_safe html)) as Hr by reflexivity.
  split; [exact Hr|]. split.
  - exact (render_stacktrace_markup "/" sample_pformat true sample_trace' html
             "<" Hr (or_introl eq_refl)).
  - exact (render_stacktrace_markup "/" sample_pformat true sample_trace' html
             "'" Hr (or_intror (or_intror (or_intror eq_refl)))).
Defined.

Lemma getframeinfo_window_witness :
  0 < 3 ∧
  sample_findsource (sample_frame 5 "<module>")
    = Some (Utils.TextLines sample_source) ∧
  ∃ window index before after,
    Utils.getframeinfo sample_getsourcefile sample_findsource sample_coding
      sample_decode (Utils.AFrame (sample_frame 5 "<module>")) 3 =
      inr ("/srv/app/views.py", 5, "<module>", Some window, Some index) ∧
    sample_source = before ++ window ++ after ∧
    Z.of_nat (length window) = Z.min 3 (Z.of_nat (length sample_source)) ∧
    index = 5 - 1 - Z.of_nat (length before).
Proof.
  assert (0 < 3) as Hcontext by lia.
  split; [exact Hcontext|]. split; [reflexivity|].
  exact (getframeinfo_window sample_getsourcefile sample_findsource
           sample_coding sample_decode (sample_frame 5 "<module>") 3
           sample_source Hcontext eq_refl).
Defined.

Lemma getframeinfo_current_line_witness :
  0 < 3 ∧
  sample_findsource (sample_frame 3 "index")
    = Some (Utils.TextLines sample_source) ∧
  2 ≤ 3 ≤ Z.of_nat (length sample_source) ∧
  ∃ window index line,
    Utils.getframeinfo sample_getsourcefile sample_findsource sample_coding
      sample_decode (Utils.AFrame (sample_frame 3 "index")) 3 =
      inr ("/srv/app/views.py", 3, "index", Some window, Some index) ∧
    0 ≤ index ∧
    sample_source !! Z.to_nat (3 - 1) = Some line ∧
    window !! Z.to_nat index = Some line.
Proof.
  assert (0 < 3) as Hcontext by lia.
  assert (2 ≤ 3 ≤ Z.of_nat (length sample_source)) as Hlineno
    by (simpl; lia).
  split; [exact Hcontext|]. split; [reflexivity|]. split; [exact Hlineno|].
  exact (getframeinfo_current_line sample_getsourcefile sample_findsource
           sample_coding sample_decode (sample_frame 3 "index") 3
           sample_source Hcontext eq_refl Hlineno).
Defined.

Lemma getframeinfo_first_line_witness :
  0 < 1 < Z.of_nat (length sample_source) ∧
  sample_findsource (sample_frame 1 "<module>")
    = Some (Utils.TextLines sample_source) ∧
  Utils.getframeinfo sample_getsourcefile sample_findsource sample_coding
    sample_decode (Utils.AFrame (sample_frame 1 "<module>")) 1 =
    inr ("/srv/app/views.py", 1, "<module>",
         Some ["def index(request):" +:+ Str.newline], Some (-1)).
Proof.
  assert (0 < 1 < Z.of_nat (length sample_source)) as Hcontext
    by (simpl; lia).
  split; [exact Hcontext|]. split; [reflexivity|].
  exact (getframeinfo_first_line sample_getsourcefile sample_findsource
           sample_coding sample_decode (sample_frame 1 "<module>") 1
           sample_source Hcontext eq_refl eq_refl).
Defined.

Lemma tidy_stacktrace_get_stack_witness :
  let frames := [sample_frame 3 "index"; sample_frame 5 "<module>"] in
  Forall
    (λ frame, ∃ all,
       sample_findsource frame = Some (Utils.TextLines all) ∧
       2 ≤ Utils.f_lineno frame ≤ Z.of_nat (length all))
    frames ∧
  ∃ stack,
    Utils.get_stack sample_getsourcefile sample_findsource sample_coding
      sample_decode frames 1 = inr stack ∧
    Utils.tidy_stacktrace id sample_hidden_paths false stack =
      [("/srv/app/views.py", 3, "index", "rows = list(qs)", None);
       ("/srv/app/views.py", 5, "<module>", "index(None)", None)].
Proof.
  intros frames.
  assert (Forall
            (λ frame, ∃ all,
               sample_findsource frame = Some (Utils.TextLines all) ∧
               2 ≤ Utils.f_lineno frame ≤ Z.of_nat (length all))
            frames) as Hframes.
  { repeat constructor; exists sample_source; (split; [reflexivity|simpl; lia]). }
  split; [exact Hframes|].
  destruct (tidy_stacktrace_get_stack sample_getsourcefile sample_findsource
              sample_coding sample_decode id sample_hidden_paths false
              frames Hframes) as (stack & Hstack & _).
  exists stack. split; [exact Hstack|].
  assert (inr stack = Utils.get_stack sample_getsourcefile sample_findsource
            sample_coding sample_decode frames 1) as Heq by (by rewrite Hstack).
  injection Heq as ->. reflexivity.
Defined.

Lemma sample_plain_frame_stepped_over (filename function : string) :
  function ≠ "render" → function ≠ "get_template_context" →
  stepped_over (sample_plain_frame filename function).
Proof.
  intros Hrender Hown. split; [|by left]. by intros [_ ?].
Qed.

Lemma sample_frames_before_stepped_over :
  Forall stepped_over sample_frames_before.
Proof.
  apply Forall_cons. split; [by apply sample_plain_frame_stepped_over|].
  apply Forall_cons. split; [|constructor].
  split; [by intros [_ ?]|]. right. exists Utils.AnObject.
  split; [done|]. split; [done|]. by eexists.
Qed.

Lemma get_template_info_found_witness :
  Forall stepped_over sample_frames_before ∧
  Utils.get_template_info
    (sample_frames_before
     ++ sample_render_frame (Utils.ANode sample_node) :: sample_frames_after)
  = Some (Utils.get_template_context sample_node (sample_context 6) 3).
Proof.
  pose proof sample_frames_before_stepped_over as Hbefore.
  split; [exact Hbefore|].
  exact (get_template_info_found sample_frames_before sample_frames_after
           (sample_render_frame (Utils.ANode sample_node))
           sample_node (sample_context 6) Hbefore eq_refl eq_refl eq_refl).
Defined.

Lemma get_template_info_stops_witness :
  let own :=
    sample_plain_frame "/usr/lib/python3.9/site-packages/debug_toolbar/utils.py"
      "get_template_context" in
  Forall stepped_over sample_frames_before ∧
  stops_search own ∧
  Utils.get_template_info
    (sample_frames_before
     ++ own :: [sample_render_frame (Utils.ANode sample_node)])
  = None.
Proof.
  intros own.
  pose proof sample_frames_before_stepped_over as Hbefore.
  assert (stops_search own) as Hown.
  { left. split; [|done].
    by exists "/usr/lib/python3.9/site-packages". }
  exact (conj Hbefore (conj Hown
    (get_template_info_stops sample_frames_before
       [sample_render_frame (Utils.ANode sample_node)] own Hbefore Hown))).
Defined.

Lemma get_template_info_none_witness :
  Forall stepped_over (sample_frames_before ++ sample_frames_after) ∧
  Utils.get_template_info (sample_frames_before ++ sample_frames_after) = None.
Proof.
  assert (Forall stepped_over (sample_frames_before ++ sample_frames_after))
    as Hall.
  { apply Forall_app. split; [apply sample_frames_before_stepped_over|].
    apply Forall_cons. split; [|constructor].
    by apply sample_plain_frame_stepped_over. }
  exact (conj Hall (get_template_info_none _ Hall)).
Defined.

Lemma get_template_context_size_witness :
  Utils.get_template_source_from_exception_info sample_node (sample_context 2)
    = (2, sample_lines, "index.html") ∧
  NoDup sample_lines.*1 ∧
  Z.of_nat (length (Utils.context
    (Utils.get_template_context sample_node (sample_context 2) 1))) ≤ 4.
Proof.
  assert (Utils.get_template_source_from_exception_info sample_node
            (sample_context 2) = (2, sample_lines, "index.html")) as Hsrc
    by reflexivity.
  assert (NoDup sample_lines.*1) as Hnd
    by (refine (bool_decide_unpack _ _); vm_compute; exact I).
  split; [exact Hsrc|]. split; [exact Hnd|].
  exact (proj1 (get_template_context_size sample_node (sample_context 2) 1 2
                  sample_lines "index.html" Hsrc Hnd)).
Defined.

Lemma get_template_context_highlighted_witness :
  Utils.get_template_source_from_exception_info sample_node (sample_context 6)
    = (6, sample_lines, "index.html") ∧
  {| Utils.num := 6; Utils.content := "line 6"; Utils.highlight := true |}
    ∈ Utils.context (Utils.get_template_context sample_node (sample_context 6) 0).
Proof.
  assert (Utils.get_template_source_from_exception_info sample_node
            (sample_context 6) = (6, sample_lines, "index.html")) as Hsrc
    by reflexivity.
  split; [exact Hsrc|].
  apply (get_template_context_highlighted sample_node (sample_context 6) 0 6
           sample_lines "index.html" "line 6" Hsrc).
  split; [|lia]. apply list_elem_of_In. vm_compute. tauto.
Defined.

Lemma other_threads_untouched_witness :
  let self : @Utils.ThreadCollector string _ _ string :=
    {| Utils.collections := <["worker-1" := ["SELECT 1"]]> ∅ |} in
  "worker-1" ≠ default "MainThread" None ∧
  Utils.collections (Utils.collect "MainThread" self "SELECT 2" None)
    !! "worker-1" = Some ["SELECT 1"].
Proof.
  intros self.
  assert ("worker-1" ≠ default "MainThread" None) as Hother by discriminate.
  split; [exact Hother|].
  rewrite (proj1 (other_threads_untouched "MainThread" self "SELECT 2" None
                    "worker-1" Hother)).
  reflexivity.
Defined.
